(** * go-daemonizer: the re-exec / handshake protocol of [daemonizer.go]

    A shallow embedding of package [daemonizer] (file [daemonizer.go]).
    Each process is a [World] (its argument vector, its standard streams,
    what the kernel will answer to its system calls, and the log of the
    effects it performed); the methods of [*Daemonizer] are state
    transformers over a [Daemonizer] value and a [World].  The package
    [encoding/json] is an interface ([JSONCodec]); a small JSON codec
    instantiates it for the examples. *)

From Stdlib Require Import ZArith Lia Strings.Byte.
From stdpp Require Import base option list strings gmap pretty sorting.

Set Warnings "-register-all".

Local Open Scope string_scope.
Local Open Scope list_scope.
Local Open Scope Z_scope.

(** ** Go data *)

(** [*os.File]: a descriptor number and the name given at creation.
    A nil pointer is [None]. *)
Record File := mkFile { Fd : Z; Name : string }.

(** [*os.Process] *)
Record Process := mkProcess { Pid : Z }.

(** [os.ProcAttr].  [Env] is a slice whose nil value means "inherit";
    [Files] is indexed by the descriptor number in the child. *)
Record ProcAttr := mkProcAttr {
  attr_Dir : string;
  attr_Env : option (list string);
  attr_Files : list (option File)
}.

(** Values an [interface{}] of the configuration mapping can hold.
    Channels and functions are the values [encoding/json] refuses. *)
Inductive GoValue :=
| GoNil
| GoBool (b : bool)
| GoInt (n : Z)
| GoFloat64 (n : Z)            (* a float64 holding the integer [n] *)
| GoString (s : string)
| GoSlice (l : list GoValue)
| GoMap (m : gmap string GoValue)
| GoChan (id : Z)
| GoFunc (id : Z).

(** [map[string]interface{}]; [None] is the nil map. *)
Abbreviation StringMap := (option (gmap string GoValue)).

(** Go's [error] interface values that occur in the package. The five
    sentinels are the package variables of [daemonizer.go] lines 15-26;
    [errorString] is a fresh value made by [errors.New] at a call site;
    [io_EOF] is [io.EOF]; [osError] is an error returned by package [os];
    [jsonError] one returned by package [encoding/json]. *)
Inductive error :=
| ErrNotParentProcess
| ErrNotDaemonProcess
| ErrRunDaemonFailed
| ErrParamNotSerializable
| ErrParamSendFailed
| errorString (msg : string)
| io_EOF
| osError (msg : string)
| jsonError (msg : string).

(** [err.Error()] *)
Definition Error (e : error) : string :=
  match e with
  | ErrNotParentProcess => "not parent process"
  | ErrNotDaemonProcess => "not daemon process"
  | ErrRunDaemonFailed => "failed to run daemon process"
  | ErrParamNotSerializable => "param is not JSON serializable"
  | ErrParamSendFailed => "failed to send param to daemon process"
  | errorString msg => msg
  | io_EOF => "EOF"
  | osError msg => msg
  | jsonError msg => msg
  end.

(** [errors.New] *)
Definition errors_New (msg : string) : error := errorString msg.

#[global] Instance File_eq_dec : EqDecision File.
Proof. solve_decision. Defined.
#[global] Instance error_eq_dec : EqDecision error.
Proof. solve_decision. Defined.

(** ** Constants (lines 10-13) *)

Definition DaemonProcessArgumentName : string := "daemon_process".
Definition DaemonProcessArgument : string := "--" +:+ DaemonProcessArgumentName.

(** ** Structs (lines 28-55) *)

Record daemonProcessInitRequest := mkInitRequest { Params : StringMap }.

Record daemonProcessResponse := mkResponse {
  Status : string;   (* "success" or "error" *)
  Message : string
}.

Record Daemonizer := mkDaemonizer {
  daemon : bool;
  commandArguments : list string;
  params : StringMap;
  daemonProc : option Process;
  paramReadPipe : option File;
  paramWritePipe : option File;
  outputReadPipe : option File;
  outputWritePipe : option File
}.

(** The zero value [&Daemonizer{}]. *)
Definition Daemonizer_zero : Daemonizer :=
  mkDaemonizer false [] None None None None None None.

Record DaemonizeOption := mkOption {
  Dir : string;                 (* if empty, inherit from parent process *)
  Stdin : option File;          (* if nil, inherit from parent process *)
  Stdout : option File;
  Stderr : option File;
  Env : option (list string)    (* if nil, inherit from parent process *)
}.

#[global] Instance response_eq_dec : EqDecision daemonProcessResponse.
Proof. solve_decision. Defined.

(** ** The process and its kernel *)

(** Effects a process performs, in the order it performs them. *)
Inductive Event :=
| EvPipe (r w : File)
| EvStartProcess (name : string) (argv : list string) (attr : ProcAttr)
                 (proc : Process)
| EvWrite (f : File) (data : list byte)
| EvClose (f : File).

(** One process: the package-level variables of [os] it reads or writes,
    the answers the kernel will give to its calls, and its effect log.
    - [pipe_faults]: the outcome of the successive [os.Pipe] calls, in
      order; [Some msg] is a failure, an exhausted list is success;
    - [start_fault name]: whether [os.StartProcess] of [name] fails;
    - [write_fault fd]: whether a write to descriptor [fd] fails;
    - [incoming fd]: the bytes descriptor [fd] delivers to its reader
      before end-of-data. *)
Record World := mkWorld {
  os_Args : list string;
  os_Stdin : option File;
  os_Stdout : option File;
  os_Stderr : option File;
  pipe_faults : list (option string);
  next_fd : Z;
  start_fault : string -> option string;
  next_pid : Z;
  write_fault : Z -> option string;
  incoming : Z -> list byte;
  trace : list Event
}.

Definition set_Args (a : list string) (w : World) : World :=
  mkWorld a (os_Stdin w) (os_Stdout w) (os_Stderr w) (pipe_faults w)
          (next_fd w) (start_fault w) (next_pid w) (write_fault w)
          (incoming w) (trace w).

Definition log (e : Event) (w : World) : World :=
  mkWorld (os_Args w) (os_Stdin w) (os_Stdout w) (os_Stderr w)
          (pipe_faults w) (next_fd w) (start_fault w) (next_pid w)
          (write_fault w) (incoming w) (trace w ++ [e]).

Definition took_pipe (fds : Z) (w : World) : World :=
  mkWorld (os_Args w) (os_Stdin w) (os_Stdout w) (os_Stderr w)
          (tail (pipe_faults w)) (next_fd w + fds) (start_fault w)
          (next_pid w) (write_fault w) (incoming w) (trace w).

Definition took_pid (w : World) : World :=
  mkWorld (os_Args w) (os_Stdin w) (os_Stdout w) (os_Stderr w)
          (pipe_faults w) (next_fd w) (start_fault w) (next_pid w + 1)
          (write_fault w) (incoming w) (trace w).

(** [os.ErrInvalid], what the methods of a nil [*os.File] return. *)
Definition os_ErrInvalid : error := osError "invalid argument".

(** [os.Pipe()] *)
Definition os_Pipe (w : World) : (File * File + error) * World :=
  match pipe_faults w with
  | Some msg :: _ => (inr (osError msg), took_pipe 0 w)
  | _ =>
      let r := mkFile (next_fd w) "|0" in
      let wr := mkFile (next_fd w + 1) "|1" in
      (inl (r, wr), log (EvPipe r wr) (took_pipe 2 w))
  end.

(** [os.NewFile(fd, name)], for a valid descriptor number. *)
Definition os_NewFile (fd : Z) (name : string) : option File :=
  Some (mkFile fd name).

(** [os.StartProcess(name, argv, attr)] *)
Definition os_StartProcess (name : string) (argv : list string)
    (attr : ProcAttr) (w : World) : (Process + error) * World :=
  match start_fault w name with
  | Some msg => (inr (osError msg), w)
  | None =>
      let proc := mkProcess (next_pid w) in
      (inl proc, log (EvStartProcess name argv attr proc) (took_pid w))
  end.

(** [f.Write(b)]: the number of bytes written and the error. *)
Definition File_Write (f : option File) (b : list byte) (w : World)
    : (nat * option error) * World :=
  match f with
  | None => ((0%nat, Some os_ErrInvalid), w)
  | Some f =>
      match write_fault w (Fd f) with
      | Some msg => ((0%nat, Some (osError msg)), w)
      | None => ((length b, None), log (EvWrite f b) w)
      end
  end.

(** [f.Close()] *)
Definition File_Close (f : option File) (w : World) : option error * World :=
  match f with
  | None => (Some os_ErrInvalid, w)
  | Some f => (None, log (EvClose f) w)
  end.

(** *** Opening files

    What [os.OpenFile] needs beside the process: the answers the kernel
    holds for the coming open calls ([Some msg] is a failure, an exhausted
    list is success), and the files opened so far with their flags. *)
Record FileTable := mkFileTable {
  open_faults : list (option string);
  opened : list (File * Z)
}.

Definition os_DevNull : string := "/dev/null".
Definition os_O_RDONLY : Z := 0.
Definition os_O_WRONLY : Z := 1.

Definition took_fd (w : World) : World :=
  mkWorld (os_Args w) (os_Stdin w) (os_Stdout w) (os_Stderr w)
          (pipe_faults w) (next_fd w + 1) (start_fault w) (next_pid w)
          (write_fault w) (incoming w) (trace w).

(** [os.OpenFile(name, flag, perm)] *)
Definition os_OpenFile (name : string) (flag perm : Z) (k : FileTable * World)
    : (File + error) * (FileTable * World) :=
  match open_faults k.1 with
  | Some msg :: rest => (inr (osError msg), (mkFileTable rest (opened k.1), k.2))
  | _ =>
      let f := mkFile (next_fd k.2) name in
      (inl f, (mkFileTable (tail (open_faults k.1)) (opened k.1 ++ [(f, flag)]),
               took_fd k.2))
  end.

(** [os.Open(name)] *)
Definition os_Open (name : string) : FileTable * World ->
    (File + error) * (FileTable * World) :=
  os_OpenFile name os_O_RDONLY 0.

(** ** Outcomes and the method monad *)

(** A Go call either returns or panics. *)
Inductive Outcome (A : Type) :=
| Returns (a : A)
| Panics (msg : string).
Arguments Returns {A} a.
Arguments Panics {A} msg.

(** The state a method of [*Daemonizer] runs in: the receiver and the
    process. *)
Definition State : Type := Daemonizer * World.

Definition M (A : Type) : Type := State -> Outcome A * State.

#[global] Instance M_ret : MRet M := fun A a s => (Returns a, s).
#[global] Instance M_bind : MBind M := fun A B k m s =>
  match m s with
  | (Returns a, s') => k a s'
  | (Panics msg, s') => (Panics msg, s')
  end.

Definition panic {A} (msg : string) : M A := fun s => (Panics msg, s).

(** The receiver [d]. *)
Definition self : M Daemonizer := fun s => (Returns (fst s), s).
Definition update (f : Daemonizer -> Daemonizer) : M unit :=
  fun s => (Returns tt, (f (fst s), snd s)).

(** A call into package [os]. *)
Definition os {A} (call : World -> A * World) : M A :=
  fun s => let (a, w) := call (snd s) in (Returns a, (fst s, w)).
Definition osvar {A} (var : World -> A) : M A :=
  fun s => (Returns (var (snd s)), s).

(** [defer cleanup] at the head of a function body: [cleanup] runs when the
    body returns or panics. *)
Definition defer {A B} (cleanup : M B) (body : M A) : M A := fun s =>
  let (r, s') := body s in (r, snd (cleanup s')).

(** Field assignments on the receiver. *)
Definition set_daemon (b : bool) (d : Daemonizer) : Daemonizer :=
  mkDaemonizer b (commandArguments d) (params d) (daemonProc d)
    (paramReadPipe d) (paramWritePipe d) (outputReadPipe d) (outputWritePipe d).
Definition set_commandArguments (a : list string) (d : Daemonizer) :=
  mkDaemonizer (daemon d) a (params d) (daemonProc d)
    (paramReadPipe d) (paramWritePipe d) (outputReadPipe d) (outputWritePipe d).
Definition set_params (p : StringMap) (d : Daemonizer) :=
  mkDaemonizer (daemon d) (commandArguments d) p (daemonProc d)
    (paramReadPipe d) (paramWritePipe d) (outputReadPipe d) (outputWritePipe d).
Definition set_daemonProc (p : option Process) (d : Daemonizer) :=
  mkDaemonizer (daemon d) (commandArguments d) (params d) p
    (paramReadPipe d) (paramWritePipe d) (outputReadPipe d) (outputWritePipe d).
Definition set_paramReadPipe (f : option File) (d : Daemonizer) :=
  mkDaemonizer (daemon d) (commandArguments d) (params d) (daemonProc d)
    f (paramWritePipe d) (outputReadPipe d) (outputWritePipe d).
Definition set_paramWritePipe (f : option File) (d : Daemonizer) :=
  mkDaemonizer (daemon d) (commandArguments d) (params d) (daemonProc d)
    (paramReadPipe d) f (outputReadPipe d) (outputWritePipe d).
Definition set_outputReadPipe (f : option File) (d : Daemonizer) :=
  mkDaemonizer (daemon d) (commandArguments d) (params d) (daemonProc d)
    (paramReadPipe d) (paramWritePipe d) f (outputWritePipe d).
Definition set_outputWritePipe (f : option File) (d : Daemonizer) :=
  mkDaemonizer (daemon d) (commandArguments d) (params d) (daemonProc d)
    (paramReadPipe d) (paramWritePipe d) (outputReadPipe d) f.

(** ** Package [encoding/json], as an interface *)

(** What [Decoder.Decode] answers on the bytes still to be read: a value
    and the bytes after it, [io.EOF] when no value is left, or an error. *)
Inductive DecodeResult (A : Type) :=
| DecOk (v : A) (rest : list byte)
| DecEOF
| DecErr (e : error).
Arguments DecOk {A} v rest.
Arguments DecEOF {A}.
Arguments DecErr {A} e.

Class JSONCodec := {
  (** [json.Marshal(&daemonProcessInitRequest{...})] *)
  json_Marshal : daemonProcessInitRequest -> list byte + error;
  (** what [Encoder.Encode(&daemonProcessResponse{...})] hands to its
      writer: two string fields always marshal *)
  json_Encode : daemonProcessResponse -> list byte;
  (** [Decoder.Decode(&msg)] for [msg daemonProcessInitRequest] *)
  json_DecodeRequest : list byte -> DecodeResult daemonProcessInitRequest;
  (** [Decoder.Decode(&msg)] for [msg daemonProcessResponse] *)
  json_DecodeResponse : list byte -> DecodeResult daemonProcessResponse;
  (** a decoded value takes at least one byte of the stream *)
  json_Decode_consumes : forall s v rest,
    json_DecodeResponse s = DecOk v rest -> (length rest < length s)%nat
}.

(** ** Package [daemonizer] *)

Section Daemonizer.
Context `{Codec : JSONCodec}.

(** [InheritParentIO] (lines 57-64), on the option value and the process's
    standard streams. *)
Definition InheritParentIO (w : World) (do : DaemonizeOption) : DaemonizeOption :=
  mkOption "" (os_Stdin w) (os_Stdout w) (os_Stderr w) None.

(** [UseNullIO] (lines 66-86): the option, the error returned, and the
    process with its file table. *)
Definition UseNullIO (do : DaemonizeOption) (k : FileTable * World)
    : option error * DaemonizeOption * (FileTable * World) :=
  match os_Open os_DevNull k with
  | (inr err, k) => (Some err, do, k)
  | (inl stdin, k) =>
  match os_OpenFile os_DevNull os_O_WRONLY 0 k with
  | (inr err, k) => (Some err, do, k)
  | (inl stdout, k) =>
  match os_OpenFile os_DevNull os_O_WRONLY 0 k with
  | (inr err, k) => (Some err, do, k)
  | (inl stderr, k) =>
      (None, mkOption (Dir do) (Some stdin) (Some stdout) (Some stderr) (Env do), k)
  end end end.

(** The loop of [readCommandArguments] (lines 105-112): [dm] is [d.daemon]
    and [clean] is [cleanCommandArguments]. *)
Fixpoint scanArguments (args : list string) (dm : bool) (clean : list string)
    : bool * list string :=
  match args with
  | [] => (dm, clean)
  | arg :: rest =>
      if String.eqb arg DaemonProcessArgument
      then scanArguments rest true clean
      else scanArguments rest dm (clean ++ [arg])
  end.

(** [readCommandArguments] (lines 104-119) *)
Definition readCommandArguments : M unit :=
  d ← self;
  args ← osvar os_Args;
  let '(dm, cleanCommandArguments) := scanArguments args (daemon d) [] in
  _ ← update (set_daemon dm);
  _ ← update (set_commandArguments cleanCommandArguments);
  if dm
  then os (fun w => (tt, set_Args cleanCommandArguments w))   (* overwrite Args *)
  else mret tt.

(** [IsDaemon], [GetParams], [GetCommandArguments] (lines 121-123, 160-166) *)
Definition IsDaemon (d : Daemonizer) : bool := daemon d.
Definition GetParams (d : Daemonizer) : StringMap := params d.
Definition GetCommandArguments (d : Daemonizer) : list string :=
  commandArguments d.

(** The loop of [runDaemonProcess] (lines 205-211) that builds
    [newCommandArguments], from index [argIdx] on. *)
Fixpoint markArguments (argIdx : nat) (args : list string)
    (newCommandArguments : list string) : list string :=
  match args with
  | [] => newCommandArguments
  | arg :: rest =>
      let n1 := newCommandArguments ++ [arg] in
      let n2 := if Nat.eqb argIdx 0 then n1 ++ [DaemonProcessArgument] else n1 in
      markArguments (S argIdx) rest n2
  end.

(** The [attr] built at lines 182-202. *)
Definition buildProcAttr (option_ : option DaemonizeOption) (w : World)
    (paramR outputW : File) : ProcAttr :=
  let attr := mkProcAttr "" None
    [os_Stdin w; os_Stdout w; os_Stderr w; Some paramR; Some outputW] in
  match option_ with
  | None => attr
  | Some option_ =>
      let dir := if String.eqb (Dir option_) "" then attr_Dir attr else Dir option_ in
      let files := attr_Files attr in
      let files := match Stdin option_ with
                   | Some f => <[0%nat := Some f]> files | None => files end in
      let files := match Stdout option_ with
                   | Some f => <[1%nat := Some f]> files | None => files end in
      let files := match Stderr option_ with
                   | Some f => <[2%nat := Some f]> files | None => files end in
      let env := match Env option_ with
                 | Some e => Some e | None => attr_Env attr end in
      mkProcAttr dir env files
  end.

(** [runDaemonProcess] (lines 170-225) *)
Definition runDaemonProcess (option_ : option DaemonizeOption) : M (option error) :=
  (* create pipes *)
  p1 ← os os_Pipe;
  match p1 with
  | inr err => mret (Some err)
  | inl (paramR, paramW) =>
  p2 ← os os_Pipe;
  match p2 with
  | inr err => mret (Some err)
  | inl (outputR, outputW) =>
  w ← osvar id;
  let attr := buildProcAttr option_ w paramR outputW in
  (* start the child process *)
  d ← self;
  let newCommandArguments := markArguments 0 (commandArguments d) [] in
  match commandArguments d !! 0%nat with
  | None => panic "runtime error: index out of range [0] with length 0"
  | Some name =>
  started ← os (os_StartProcess name newCommandArguments attr);
  match started with
  | inr err => mret (Some err)
  | inl proc =>
  _ ← update (set_paramReadPipe (Some paramR));
  _ ← update (set_paramWritePipe (Some paramW));
  _ ← update (set_outputReadPipe (Some outputR));
  _ ← update (set_outputWritePipe (Some outputW));
  _ ← update (set_daemonProc (Some proc));
  mret None
  end end end end.

(** [sendParamsToDaemonProcess] (lines 229-247) *)
Definition sendParamsToDaemonProcess : M (option error) :=
  d ← self;
  defer (os (File_Close (paramWritePipe d))) (
    d ← self;
    let daemonProcessInitRequest := mkInitRequest (params d) in
    match json_Marshal daemonProcessInitRequest with
    | inr _ => mret (Some ErrParamNotSerializable)
    | inl paramBytes =>
        '(_, err) ← os (File_Write (paramWritePipe d) paramBytes);
        match err with
        | Some _ => mret (Some ErrParamSendFailed)
        | None => mret None
        end
    end).

(** The goroutine of [readOutputFromDaemonProcess] (lines 254-278), run on
    the bytes [s] its pipe delivers: the messages it sends on
    [responseChan] before closing it.  Every round decodes one value, and a
    decoded value consumes input, so [S (length s)] rounds always suffice
    ([decodeLoop_total] below); [None] is an exhausted round budget. *)
Fixpoint decodeLoop (fuel : nat) (s : list byte)
    : option (list daemonProcessResponse) :=
  match fuel with
  | O => None
  | S fuel =>
      match json_DecodeResponse s with
      | DecEOF => Some []
      | DecErr err => Some [mkResponse "error" (Error err)]
      | DecOk msg rest => cons msg <$> decodeLoop fuel rest
      end
  end.

(** The messages on [responseChan] for the bytes [s], with the round budget
    that always suffices. *)
Definition responseChan (s : list byte) : list daemonProcessResponse :=
  default [] (decodeLoop (S (length s)) s).

(** [readOutputFromDaemonProcess] (lines 251-281).  The channel is the list
    of the messages the goroutine sends, in order, until it closes the
    channel.  A nil [outputReadPipe] makes every read fail with
    [os.ErrInvalid]. The deferred close of the read end belongs to the
    goroutine and is not ordered with the caller; it is not logged. *)
Definition readOutputFromDaemonProcess : M (list daemonProcessResponse) :=
  d ← self;
  match outputReadPipe d with
  | None => mret [mkResponse "error" (Error os_ErrInvalid)]
  | Some f =>
      s ← osvar (fun w => incoming w (Fd f));
      mret (responseChan s)
  end.

(** The [for msg := range daemonProcessResponse] loop of [Daemonize] (lines
    148-157) over the messages of the channel; [None] is the nil error. *)
Fixpoint rangeResponses (ch : list daemonProcessResponse) : option error :=
  match ch with
  | [] => None
  | msg :: ch' =>
      if String.eqb (Status msg) "success" then None
      else if String.eqb (Status msg) "error" then Some (errors_New (Message msg))
      else rangeResponses ch'
  end.

(** [Daemonize] (lines 127-158) *)
Definition Daemonize (params : StringMap) (option_ : DaemonizeOption)
    : M (option error) :=
  d ← self;
  if daemon d then mret (Some ErrNotParentProcess) else
  (* set params *)
  _ ← update (set_params params);
  err ← runDaemonProcess (Some option_);
  match err with
  | Some err => mret (Some err)
  | None =>
  err ← sendParamsToDaemonProcess;
  match err with
  | Some err =>
      d ← self;
      _ ← os (File_Close (outputReadPipe d));
      mret (Some err)
  | None =>
  (* read output from the daemon process *)
  daemonProcessResponse ← readOutputFromDaemonProcess;
  mret (rangeResponses daemonProcessResponse)
  end end.

(** [readParamsFromParentProcess] (lines 311-325) *)
Definition readParamsFromParentProcess : M (option error) :=
  d ← self;
  defer (os (File_Close (paramReadPipe d))) (
    d ← self;
    decoded ← match paramReadPipe d with
              | None => mret (DecErr os_ErrInvalid)
              | Some f => osvar (fun w => json_DecodeRequest (incoming w (Fd f)))
              end;
    match decoded with
    | DecErr err => mret (Some err)
    | DecEOF => mret (Some io_EOF)
    | DecOk msg _ =>
        _ ← update (set_params (Params msg));
        mret None
    end).

(** [sendResponseToParentProcess] (lines 329-344) *)
Definition sendResponseToParentProcess (status message : string)
    : M (option error) :=
  d ← self;
  defer (os (File_Close (outputWritePipe d))) (
    d ← self;
    let response := mkResponse status message in
    '(_, err) ← os (File_Write (outputWritePipe d) (json_Encode response));
    match err with
    | Some err => mret (Some err)
    | None => mret None
    end).

(** [initDaemonProcess] (lines 285-307) *)
Definition initDaemonProcess : M (option error) :=
  d ← self;
  if negb (daemon d) then mret (Some ErrNotDaemonProcess) else
  (* init pipes *)
  _ ← update (set_paramReadPipe (os_NewFile 3 "paramReadPipe"));      (* fd 3 *)
  _ ← update (set_outputWritePipe (os_NewFile 4 "outputWritePipe"));  (* fd 4 *)
  err ← readParamsFromParentProcess;
  match err with
  | Some err =>
      (* write error to the parent process *)
      _ ← sendResponseToParentProcess "error" (Error err);
      mret (Some err)
  | None =>
      (* write success to the parent process *)
      err ← sendResponseToParentProcess "success"
              "daemon process started successfully";
      match err with
      | Some err => mret (Some err)
      | None => mret None
      end
  end.

(** [NewDaemonizer] (lines 89-102): the constructor runs on the zero value
    and hands it out unless the daemon-side initialization fails. *)
Definition NewDaemonizer (w : World)
    : Outcome (option Daemonizer * option error) * World :=
  let body : M (option error) :=
    _ ← readCommandArguments;
    d ← self;
    if daemon d then initDaemonProcess else mret None in
  match body (Daemonizer_zero, w) with
  | (Returns (Some err), (_, w')) => (Returns (None, Some err), w')
  | (Returns None, (d, w')) => (Returns (Some d, None), w')
  | (Panics msg, (_, w')) => (Panics msg, w')
  end.

End Daemonizer.

(** ** A JSON codec for the examples

    An instance of [JSONCodec] on a fragment of JSON: objects, arrays,
    strings with the two escapes for the quote and the backslash, integer
    numbers, [true], [false] and [null].  Object keys are matched exactly
    and written in sorted order; a decoded number is a float64. *)

Module MiniJSON.

Inductive JSON :=
| JNull
| JBool (b : bool)
| JNumber (n : Z)
| JString (s : string)
| JArray (l : list JSON)
| JObject (l : list (string * JSON)).

Definition bytes (s : string) : list byte := String.list_byte_of_string s.

Definition dquote : byte := Byte.x22.
Definition backslash : byte := Byte.x5c.

(** *** Encoding *)

Fixpoint escape (s : list byte) : list byte :=
  match s with
  | [] => []
  | c :: r =>
      if Byte.eqb c dquote || Byte.eqb c backslash
      then backslash :: c :: escape r
      else c :: escape r
  end.

Definition quote (s : string) : list byte :=
  dquote :: escape (bytes s) ++ [dquote].

Fixpoint commas (l : list (list byte)) : list byte :=
  match l with
  | [] => []
  | [x] => x
  | x :: r => x ++ ","%byte :: commas r
  end.

Definition member (kv : string * list byte) : list byte :=
  quote kv.1 ++ ":"%byte :: kv.2.

Definition key_le (a b : string * option (list byte)) : Prop :=
  String.leb a.1 b.1.

Fixpoint marshalValue (v : GoValue) : option (list byte) :=
  match v with
  | GoNil => Some (bytes "null")
  | GoBool b => Some (bytes (if b then "true" else "false"))
  | GoInt n | GoFloat64 n => Some (bytes (pretty n))
  | GoString s => Some (quote s)
  | GoSlice l =>
      elems ← (fix each l := match l with
                             | [] => Some []
                             | x :: r => a ← marshalValue x; b ← each r; Some (a :: b)
                             end) l;
      Some ("["%byte :: commas elems ++ ["]"%byte])
  | GoMap m =>
      fields ← mapM (λ kv : string * option (list byte), b ← kv.2; Some (member (kv.1, b)))
                    (merge_sort key_le (map_to_list (marshalValue <$> m)));
      Some ("{"%byte :: commas fields ++ ["}"%byte])
  | GoChan _ | GoFunc _ => None
  end.

Definition Marshal (req : daemonProcessInitRequest) : list byte + error :=
  let value := match Params req with
               | None => Some (bytes "null")
               | Some m => marshalValue (GoMap m)
               end in
  match value with
  | None => inr (jsonError "json: unsupported type")
  | Some b => inl ("{"%byte :: member ("params", b) ++ ["}"%byte])
  end.

Definition Encode (r : daemonProcessResponse) : list byte :=
  "{"%byte :: commas [member ("status", quote (Status r));
                      member ("message", quote (Message r))]
    ++ ["}"%byte; Byte.x0a].

(** *** Decoding *)

Definition is_space (b : byte) : bool :=
  Byte.eqb b " "%byte || Byte.eqb b Byte.x09 || Byte.eqb b Byte.x0a
  || Byte.eqb b Byte.x0d.

Fixpoint skip_space (s : list byte) : list byte :=
  match s with
  | c :: r => if is_space c then skip_space r else s
  | [] => []
  end.

Definition digit (b : byte) : option Z :=
  let n := Z.of_N (Byte.to_N b) in
  if (48 <=? n) && (n <=? 57) then Some (n - 48) else None.

Fixpoint parse_digits (acc : Z) (s : list byte) : Z * list byte :=
  match s with
  | c :: r => match digit c with
              | Some k => parse_digits (10 * acc + k) r
              | None => (acc, s)
              end
  | [] => (acc, [])
  end.

Definition starts_digit (s : list byte) : bool :=
  match s with
  | c :: _ => bool_decide (is_Some (digit c))
  | [] => false
  end.

(** The body of a string, after its opening quote. *)
Fixpoint parse_string (s : list byte) : option (list byte * list byte) :=
  match s with
  | [] => None
  | c :: r =>
      if Byte.eqb c dquote then Some ([], r)
      else if Byte.eqb c backslash then
        match r with
        | e :: r' =>
            if Byte.eqb e dquote || Byte.eqb e backslash
            then '(str, rest) ← parse_string r'; Some (e :: str, rest)
            else None
        | [] => None
        end
      else '(str, rest) ← parse_string r; Some (c :: str, rest)
  end.

(** [strip p s]: [s] without its prefix [p]. *)
Fixpoint strip (p s : list byte) : option (list byte) :=
  match p, s with
  | [], _ => Some s
  | a :: p', b :: s' => if Byte.eqb a b then strip p' s' else None
  | _ :: _, [] => None
  end.

Definition starts (c : byte) (s : list byte) : bool :=
  match s with
  | b :: _ => Byte.eqb b c
  | [] => false
  end.

Fixpoint parse_value (fuel : nat) (s : list byte) : option (JSON * list byte) :=
  match fuel with
  | O => None
  | S fuel =>
      match skip_space s with
      | [] => None
      | c :: r =>
          if Byte.eqb c "n"%byte then r' ← strip (bytes "ull") r; Some (JNull, r')
          else if Byte.eqb c "t"%byte then
            r' ← strip (bytes "rue") r; Some (JBool true, r')
          else if Byte.eqb c "f"%byte then
            r' ← strip (bytes "alse") r; Some (JBool false, r')
          else if Byte.eqb c dquote then
            '(str, r') ← parse_string r;
            Some (JString (String.string_of_list_byte str), r')
          else if Byte.eqb c "["%byte then
            if starts "]"%byte (skip_space r)
            then Some (JArray [], tail (skip_space r))
            else '(l, r') ← parse_elements fuel r; Some (JArray l, r')
          else if Byte.eqb c "{"%byte then
            if starts "}"%byte (skip_space r)
            then Some (JObject [], tail (skip_space r))
            else '(l, r') ← parse_members fuel r; Some (JObject l, r')
          else if Byte.eqb c "-"%byte then
            if starts_digit r
            then let '(n, r') := parse_digits 0 r in Some (JNumber (- n), r')
            else None
          else if starts_digit (c :: r)
            then let '(n, r') := parse_digits 0 (c :: r) in Some (JNumber n, r')
            else None
      end
  end
with parse_elements (fuel : nat) (s : list byte) : option (list JSON * list byte) :=
  match fuel with
  | O => None
  | S fuel =>
      '(v, r) ← parse_value fuel s;
      if starts ","%byte (skip_space r) then
        '(l, r') ← parse_elements fuel (tail (skip_space r)); Some (v :: l, r')
      else if starts "]"%byte (skip_space r) then Some ([v], tail (skip_space r))
      else None
  end
with parse_members (fuel : nat) (s : list byte)
    : option (list (string * JSON) * list byte) :=
  match fuel with
  | O => None
  | S fuel =>
      if starts dquote (skip_space s) then
        '(key, r1) ← parse_string (tail (skip_space s));
        if starts ":"%byte (skip_space r1) then
          '(v, r3) ← parse_value fuel (tail (skip_space r1));
          let kv := (String.string_of_list_byte key, v) in
          if starts ","%byte (skip_space r3) then
            '(l, r5) ← parse_members fuel (tail (skip_space r3)); Some (kv :: l, r5)
          else if starts "}"%byte (skip_space r3) then
            Some ([kv], tail (skip_space r3))
          else None
        else None
      else None
  end.

(** The last binding of a key wins, as in [encoding/json]. *)
Fixpoint field (key : string) (l : list (string * JSON)) : option JSON :=
  match l with
  | [] => None
  | (k, v) :: r =>
      match field key r with
      | Some v' => Some v'
      | None => if String.eqb k key then Some v else None
      end
  end.

Fixpoint toGoValue (j : JSON) : GoValue :=
  match j with
  | JNull => GoNil
  | JBool b => GoBool b
  | JNumber n => GoFloat64 n
  | JString s => GoString s
  | JArray l => GoSlice (map toGoValue l)
  | JObject l =>
      GoMap ((fix each l (g : gmap string GoValue) : gmap string GoValue :=
                match l with
                | [] => g
                | (k, v) :: r => each r (<[k := toGoValue v]> g)
                end) l ∅)
  end.

Definition mismatch : error :=
  jsonError "json: cannot unmarshal value into Go struct field".

(** One [Decoder.Decode] on the unread bytes [s]: leading space is skipped,
    no further byte is [io.EOF], and a value that does not parse is a
    syntax error. *)
Definition decode {A} (convert : JSON -> A + error) (s : list byte)
    : DecodeResult A :=
  match skip_space s with
  | [] => DecEOF
  | s' =>
      match parse_value (S (length s')) s' with
      | None => DecErr (jsonError "invalid character in JSON input")
      | Some (j, rest) =>
          match convert j with
          | inl v => DecOk v rest
          | inr e => DecErr e
          end
      end
  end.

Definition stringField (key : string) (l : list (string * JSON))
    : string + error :=
  match field key l with
  | None | Some JNull => inl ""
  | Some (JString s) => inl s
  | Some _ => inr mismatch
  end.

Definition toResponse (j : JSON) : daemonProcessResponse + error :=
  match j with
  | JNull => inl (mkResponse "" "")
  | JObject l =>
      match stringField "status" l, stringField "message" l with
      | inl s, inl m => inl (mkResponse s m)
      | inr e, _ | _, inr e => inr e
      end
  | _ => inr mismatch
  end.

Definition toRequest (j : JSON) : daemonProcessInitRequest + error :=
  match j with
  | JNull => inl (mkInitRequest None)
  | JObject l =>
      match field "params" l with
      | None | Some JNull => inl (mkInitRequest None)
      | Some (JObject m) =>
          match toGoValue (JObject m) with
          | GoMap g => inl (mkInitRequest (Some g))
          | _ => inr mismatch
          end
      | Some _ => inr mismatch
      end
  | _ => inr mismatch
  end.

Definition DecodeRequest := decode toRequest.
Definition DecodeResponse := decode toResponse.

End MiniJSON.

(** ** The environment of a parent-side run *)

(** The outcome the kernel holds for the [i]-th coming [os.Pipe] call. *)
Definition pipe_fault (w : World) (i : nat) : option string :=
  mjoin (pipe_faults w !! i).

Section Vocabulary.
Context `{Codec : JSONCodec}.

(** In [w], the launch of [runDaemonProcess] goes through: both pipes are
    created, there is a program name, and the process starts. *)
Definition launches (d : Daemonizer) (w : World) : Prop :=
  pipe_fault w 0 = None /\ pipe_fault w 1 = None /\
  exists name, commandArguments d !! 0%nat = Some name /\ start_fault w name = None.

(** In [w], [params] is delivered: it serializes and the write on the
    parameter pipe's write end (the second descriptor of the first pipe)
    goes through. *)
Definition sends (params : StringMap) (w : World) : Prop :=
  (exists b, json_Marshal (mkInitRequest params) = inl b) /\
  write_fault w (next_fd w + 1) = None.

(** The bytes the read end of the status pipe (the first descriptor of the
    second pipe) delivers to the parent before end-of-data. *)
Definition status_stream (w : World) : list byte := incoming w (next_fd w + 2).

(** The three ways the kernel can fail a launch, with the message of the
    error package [os] reports. *)
Inductive launch_failure (d : Daemonizer) (w : World) (msg : string) : Prop :=
| parameter_pipe_fails :
    pipe_fault w 0 = Some msg -> launch_failure d w msg
| status_pipe_fails :
    pipe_fault w 0 = None -> pipe_fault w 1 = Some msg -> launch_failure d w msg
| start_fails name :
    pipe_fault w 0 = None -> pipe_fault w 1 = None ->
    commandArguments d !! 0%nat = Some name -> start_fault w name = Some msg ->
    launch_failure d w msg.

(** The pipe ends of a launch from [w]: the parameter pipe is created
    first, the status pipe second. *)
Definition paramR (w : World) : File := mkFile (next_fd w) "|0".
Definition paramW (w : World) : File := mkFile (next_fd w + 1) "|1".
Definition outputR (w : World) : File := mkFile (next_fd w + 2) "|0".
Definition outputW (w : World) : File := mkFile (next_fd w + 2 + 1) "|1".

(** The events of a launch that goes through. *)
Definition launch_events (option_ : option DaemonizeOption) (d : Daemonizer)
    (w : World) (name : string) : list Event :=
  [EvPipe (paramR w) (paramW w); EvPipe (outputR w) (outputW w);
   EvStartProcess name (markArguments 0 (commandArguments d) [])
     (buildProcAttr option_ w (paramR w) (outputW w)) (mkProcess (next_pid w))].

Definition launched (d : Daemonizer) (w : World) : Daemonizer :=
  mkDaemonizer (daemon d) (commandArguments d) (params d)
    (Some (mkProcess (next_pid w)))
    (Some (paramR w)) (Some (paramW w)) (Some (outputR w)) (Some (outputW w)).

(** The events of [sendParamsToDaemonProcess] for a receiver whose write
    end is [f]: the write, when it happens, then the deferred close. *)
Definition send_events (f : File) (d : Daemonizer) (w : World) : list Event :=
  match json_Marshal (mkInitRequest (params d)) with
  | inl b => match write_fault w (Fd f) with
             | None => [EvWrite f b; EvClose f]
             | Some _ => [EvClose f]
             end
  | inr _ => [EvClose f]
  end.

Definition send_result (f : File) (d : Daemonizer) (w : World) : option error :=
  match json_Marshal (mkInitRequest (params d)) with
  | inl b => match write_fault w (Fd f) with
             | None => None
             | Some _ => Some ErrParamSendFailed
             end
  | inr _ => Some ErrParamNotSerializable
  end.

(** An argument other than the marker. *)
Definition unmarked (arg : string) : Prop := arg <> DaemonProcessArgument.

(** The inherited pipe ends (lines 291-292). *)
Definition fd3 : File := mkFile 3 "paramReadPipe".
Definition fd4 : File := mkFile 4 "outputWritePipe".

(** The error [readParamsFromParentProcess] returns for a decode answer. *)
Definition decode_failure {A} (r : DecodeResult A) : option error :=
  match r with
  | DecOk _ _ => None
  | DecEOF => Some io_EOF
  | DecErr err => Some err
  end.

(** The events of one [sendResponseToParentProcess] on [fd4]. *)
Definition response_events (w : World) (r : daemonProcessResponse) : list Event :=
  match write_fault w 4 with
  | None => [EvWrite fd4 (json_Encode r); EvClose fd4]
  | Some _ => [EvClose fd4]
  end.

Definition wired (d : Daemonizer) : Daemonizer :=
  set_outputWritePipe (Some fd4) (set_paramReadPipe (Some fd3) d).

(** A message the loop of [Daemonize] passes over: its status is neither
    ["success"] nor ["error"]. *)
Definition passed_over (msg : daemonProcessResponse) : Prop :=
  Status msg <> "success" /\ Status msg <> "error".

End Vocabulary.

(** ** A concrete parent and daemon, for the examples *)

Module Scenario.
Import MiniJSON.

Definition stdin : File := mkFile 0 "/dev/stdin".
Definition stdout : File := mkFile 1 "/dev/stdout".
Definition stderr : File := mkFile 2 "/dev/stderr".

(** The configuration of [example.go]. *)
Definition config : StringMap :=
  Some (<["host" := GoString "localhost"]> (<["port" := GoInt 8080]> ∅)).

Definition options : DaemonizeOption := mkOption "" None None None None.

(** A process started as [args], whose descriptor [fd] delivers [input],
    and where no kernel call fails. *)
Definition process (args : list string) (fd : Z) (input : list byte) : World :=
  mkWorld args (Some stdin) (Some stdout) (Some stderr) [] 5
          (fun _ => None) 4242 (fun _ => None)
          (fun k => if k =? fd then input else []) [].

(** The parent [echod -v], whose status pipe will be descriptors 7 and 8,
    and its [Daemonizer] after construction. *)
Definition parent_world (status : list byte) : World :=
  process ["/usr/bin/echod"; "-v"] 7 status.
Definition parent : Daemonizer :=
  set_commandArguments ["/usr/bin/echod"; "-v"] Daemonizer_zero.

(** The re-executed child, reading [input] on descriptor 3. *)
Definition daemon_world (input : list byte) : World :=
  process ["/usr/bin/echod"; DaemonProcessArgument; "-v"] 3 input.

(** A parent whose argument vector is empty. *)
Definition nameless : Daemonizer := Daemonizer_zero.

(** The success record of line 302, as the daemon writes it. *)
Definition started : list byte :=
  Encode (mkResponse "success" "daemon process started successfully").

(** What a daemon that could not parse its parameters reports. *)
Definition syntax_error : error := jsonError "invalid character in JSON input".
Definition refused : list byte :=
  Encode (mkResponse "error" (Error syntax_error)).

(** A process in which the second [os.Pipe] call fails. *)
Definition exhausted : World :=
  mkWorld ["/usr/bin/echod"] (Some stdin) (Some stdout) (Some stderr)
          [None; Some "pipe2: too many open files"] 5
          (fun _ => None) 4242 (fun _ => None) (fun _ => []) [].

End Scenario.

(** ** Vocabulary of the further properties *)

Section FurtherVocabulary.
Context `{Codec : JSONCodec}.

(** The record of line 302. *)
Definition started_record : daemonProcessResponse :=
  mkResponse "success" "daemon process started successfully".

(** Events of the launch: pipe creations and the process start. *)
Definition is_launch_event (ev : Event) : Prop :=
  match ev with
  | EvPipe _ _ | EvStartProcess _ _ _ _ => True
  | _ => False
  end.

Definition is_pipe_event (ev : Event) : Prop :=
  match ev with
  | EvPipe _ _ => True
  | _ => False
  end.


(** The outcome the kernel holds for the [i]-th coming open call. *)
Definition open_fault (t : FileTable) (i : nat) : option string :=
  mjoin (open_faults t !! i).

(** The zero value [DaemonizeOption{}]. *)
Definition DaemonizeOption_zero : DaemonizeOption := mkOption "" None None None None.

(** The three files a successful [UseNullIO] opens in [w]. *)
Definition null_stdin (w : World) : File := mkFile (next_fd w) os_DevNull.
Definition null_stdout (w : World) : File := mkFile (next_fd w + 1) os_DevNull.
Definition null_stderr (w : World) : File := mkFile (next_fd w + 1 + 1) os_DevNull.

End FurtherVocabulary.

(** ** More concrete processes, for the examples *)

Module Cases.
Import MiniJSON Scenario.

(** The envelope of the example configuration, and what a daemon decodes
    from it (numbers come back as float64). *)
Definition envelope : list byte :=
  match Marshal (mkInitRequest config) with
  | inl b => b
  | inr _ => []
  end.
Definition received : daemonProcessInitRequest :=
  mkInitRequest
    (Some (<["host" := GoString "localhost"]> (<["port" := GoFloat64 8080]> ∅))).

(** A daemon whose descriptor 4 refuses writes. *)
Definition mute (input : list byte) : World :=
  mkWorld ["/usr/bin/echod"; DaemonProcessArgument; "-v"]
          (Some stdin) (Some stdout) (Some stderr) [] 5
          (fun _ => None) 4242
          (fun fd => if fd =? 4 then Some "write |1: broken pipe" else None)
          (fun k => if k =? 3 then input else []) [].

(** A mapping [encoding/json] refuses. *)
Definition unserializable : StringMap := Some (<["done" := GoChan 1]> ∅).

(** A status stream with a record of another status before the error. *)
Definition chatty : list byte :=
  Encode (mkResponse "starting" "reading parameters") ++ refused.

(** A file table whose open calls all go through. *)
Definition files : FileTable := mkFileTable [] [].

End Cases.

(** * Properties *)

(** ** The example codec is a codec *)

Module MiniJSONFacts.
Import MiniJSON.

Lemma skip_space_length s : (length (skip_space s) <= length s)%nat.
Proof.
  induction s as [|c r IH]; simpl; [lia|].
  destruct (is_space c); simpl; lia.
Qed.

Lemma tail_length (s : list byte) : (length (tail s) <= length s)%nat.
Proof. destruct s; simpl; lia. Qed.

Lemma strip_length p : forall s r, strip p s = Some r -> (length r <= length s)%nat.
Proof.
  induction p as [|a p IH]; intros s r H; simpl in H.
  - by simplify_eq.
  - destruct s as [|b s]; [done|].
    destruct (Byte.eqb a b); [|done]. apply IH in H. simpl. lia.
Qed.

Lemma parse_digits_length s : forall acc,
  (length (parse_digits acc s).2 <= length s)%nat.
Proof.
  induction s as [|c r IH]; intros acc; simpl; [lia|].
  destruct (digit c); simpl; [|lia]. specialize (IH (10 * acc + z)). lia.
Qed.

Lemma parse_digits_digit s acc :
  starts_digit s = true -> (length (parse_digits acc s).2 < length s)%nat.
Proof.
  destruct s as [|c r]; simpl; [done|]. intros H.
  apply bool_decide_eq_true in H as [k Hk]. rewrite Hk.
  pose proof (parse_digits_length r (10 * acc + k)). lia.
Qed.

Lemma parse_string_length s : forall str rest,
  parse_string s = Some (str, rest) -> (length rest < length s)%nat.
Proof.
  induction s as [s IH] using (induction_ltof1 _ (@length byte)).
  unfold ltof in IH. intros str rest H. destruct s as [|c r]; simpl in H; [done|].
  destruct (Byte.eqb c dquote).
  { simplify_eq. simpl. lia. }
  destruct (Byte.eqb c backslash).
  - destruct r as [|e r']; [done|].
    destruct (_ || _); [|done].
    destruct (parse_string r') as [[str' rest']|] eqn:E; simpl in H; [|done].
    simplify_eq. apply IH in E; simpl in *; lia.
  - destruct (parse_string r) as [[str' rest']|] eqn:E; simpl in H; [|done].
    simplify_eq. apply IH in E; simpl in *; lia.
Qed.

#[local] Arguments strip : simpl never.
#[local] Arguments skip_space : simpl never.
#[local] Arguments parse_string : simpl never.
#[local] Arguments parse_digits : simpl never.
#[local] Arguments starts : simpl never.
#[local] Arguments starts_digit : simpl never.

Ltac space_bound_at s :=
  lazymatch goal with
  | _ : (length (tail (skip_space s)) <= length (skip_space s))%nat |- _ => fail
  | _ => pose proof (skip_space_length s);
         pose proof (tail_length (skip_space s))
  end.

Ltac space_bound :=
  repeat match goal with
  | H : context [tail (skip_space ?s)] |- _ => space_bound_at s
  | |- context [tail (skip_space ?s)] => space_bound_at s
  end.

Lemma parse_length fuel :
  (forall s v rest, parse_value fuel s = Some (v, rest) ->
     (length rest < length s)%nat) /\
  (forall s l rest, parse_elements fuel s = Some (l, rest) ->
     (length rest < length s)%nat) /\
  (forall s l rest, parse_members fuel s = Some (l, rest) ->
     (length rest < length s)%nat).
Proof.
  induction fuel as [|fuel (IHv & IHe & IHm)]; [by repeat split|].
  split; [|split]; intros s v rest H; simpl in H.
  - pose proof (skip_space_length s) as Hs.
    destruct (skip_space s) as [|c r] eqn:Es; [done|]. simpl in Hs.
    repeat match type of H with
    | (if Byte.eqb ?a ?b then _ else _) = _ => destruct (Byte.eqb a b)
    end.
    + destruct (strip _ r) as [r'|] eqn:E; simpl in H; [|done].
      simplify_eq. apply strip_length in E. lia.
    + destruct (strip _ r) as [r'|] eqn:E; simpl in H; [|done].
      simplify_eq. apply strip_length in E. lia.
    + destruct (strip _ r) as [r'|] eqn:E; simpl in H; [|done].
      simplify_eq. apply strip_length in E. lia.
    + destruct (parse_string r) as [[str r']|] eqn:E; simpl in H; [|done].
      simplify_eq. apply parse_string_length in E. lia.
    + destruct (starts _ _).
      * simplify_eq. space_bound. lia.
      * destruct (parse_elements fuel r) as [[l r']|] eqn:E; simpl in H; [|done].
        simplify_eq. apply IHe in E. lia.
    + destruct (starts _ _).
      * simplify_eq. space_bound. lia.
      * destruct (parse_members fuel r) as [[l r']|] eqn:E; simpl in H; [|done].
        simplify_eq. apply IHm in E. lia.
    + destruct (starts_digit r) eqn:D; [|done].
      pose proof (parse_digits_digit r 0 D).
      destruct (parse_digits 0 r) as [n r']. simplify_eq. simpl in *. lia.
    + destruct (starts_digit (c :: r)) eqn:D; [|done].
      pose proof (parse_digits_digit (c :: r) 0 D).
      destruct (parse_digits 0 (c :: r)) as [n r']. simplify_eq. simpl in *. lia.
  - destruct (parse_value fuel s) as [[x r]|] eqn:E; simpl in H; [|done].
    apply IHv in E. space_bound.
    destruct (starts _ _).
    + destruct (parse_elements fuel _) as [[l r']|] eqn:E2; simpl in H; [|done].
      simplify_eq. apply IHe in E2. lia.
    + destruct (starts _ _); [|done]. simplify_eq. lia.
  - space_bound. destruct (starts dquote _); [|done].
    destruct (parse_string _) as [[key r1]|] eqn:E1; simpl in H; [|done].
    apply parse_string_length in E1. space_bound.
    destruct (starts _ _); [|done].
    destruct (parse_value fuel _) as [[x r3]|] eqn:E3; simpl in H; [|done].
    apply IHv in E3. space_bound.
    destruct (starts _ _).
    + destruct (parse_members fuel _) as [[l r5]|] eqn:E5; simpl in H; [|done].
      simplify_eq. apply IHm in E5. lia.
    + destruct (starts _ _); [|done]. simplify_eq. lia.
Qed.

Lemma decode_consumes {A} (convert : JSON -> A + error) s v rest :
  decode convert s = DecOk v rest -> (length rest < length s)%nat.
Proof.
  unfold decode. intros H. pose proof (skip_space_length s) as Hs.
  destruct (skip_space s) as [|c r] eqn:Es; [done|].
  destruct (parse_value _ _) as [[j rest']|] eqn:E; [|done].
  destruct (convert j); simplify_eq.
  apply (proj1 (parse_length _)) in E. lia.
Qed.

#[export] Instance codec : JSONCodec := {|
  json_Marshal := Marshal;
  json_Encode := Encode;
  json_DecodeRequest := DecodeRequest;
  json_DecodeResponse := DecodeResponse;
  json_Decode_consumes := decode_consumes toResponse
|}.

End MiniJSONFacts.

Section Properties.
Context `{Codec : JSONCodec}.

(** ** The decode loop never exhausts its rounds *)

Lemma decodeLoop_total fuel : forall s,
  (length s < fuel)%nat -> is_Some (decodeLoop fuel s).
Proof.
  induction fuel as [|fuel IH]; intros s Hs; [lia|]. simpl.
  destruct (json_DecodeResponse s) as [msg rest| |err] eqn:E; eauto.
  apply json_Decode_consumes in E.
  destruct (IH rest) as [l Hl]; [lia|]. rewrite Hl. eauto.
Qed.

Lemma decodeLoop_more fuel : forall s l fuel',
  decodeLoop fuel s = Some l -> (fuel <= fuel')%nat -> decodeLoop fuel' s = Some l.
Proof.
  induction fuel as [|fuel IH]; intros s l fuel' H Hle; [done|].
  destruct fuel' as [|fuel']; [lia|]. simpl in *.
  destruct (json_DecodeResponse s) as [msg rest| |err]; try done.
  destruct (decodeLoop fuel rest) as [l'|] eqn:E; [|done].
  rewrite (IH rest l' fuel' E); [done|lia].
Qed.

(** The round budget of [responseChan] is never exhausted. *)
Lemma responseChan_total s :
  decodeLoop (S (length s)) s = Some (responseChan s).
Proof.
  unfold responseChan.
  destruct (decodeLoop_total (S (length s)) s) as [l ->]; [lia|done].
Qed.

(** The channel of a stream, one decode at a time (lines 259-275). *)
Lemma responseChan_unfold s :
  responseChan s =
  match json_DecodeResponse s with
  | DecEOF => []
  | DecErr err => [mkResponse "error" (Error err)]
  | DecOk msg rest => msg :: responseChan rest
  end.
Proof.
  unfold responseChan at 1. simpl.
  destruct (json_DecodeResponse s) as [msg rest| |err] eqn:E; try done.
  pose proof (json_Decode_consumes _ _ _ E) as Hlt.
  destruct (decodeLoop_total (S (length rest)) rest) as [l Hl]; [lia|].
  unfold responseChan. rewrite Hl.
  rewrite (decodeLoop_more _ _ _ (length s) Hl); [done|lia].
Qed.

(** ** The kernel calls *)

Lemma os_Pipe_ok w :
  pipe_fault w 0 = None ->
  os_Pipe w =
    (inl (mkFile (next_fd w) "|0", mkFile (next_fd w + 1) "|1"),
     log (EvPipe (mkFile (next_fd w) "|0") (mkFile (next_fd w + 1) "|1"))
         (took_pipe 2 w)).
Proof.
  unfold pipe_fault, os_Pipe. destruct (pipe_faults w) as [|[msg|] t]; done.
Qed.

Lemma os_Pipe_fails w msg :
  pipe_fault w 0 = Some msg ->
  os_Pipe w = (inr (osError msg), took_pipe 0 w).
Proof.
  unfold pipe_fault, os_Pipe. destruct (pipe_faults w) as [|[m|] t]; simpl; congruence.
Qed.

Lemma pipe_fault_next e k w i :
  pipe_fault (log e (took_pipe k w)) i = pipe_fault w (S i).
Proof. unfold pipe_fault. simpl. by destruct (pipe_faults w). Qed.

Lemma pipe_fault_took k w i : pipe_fault (took_pipe k w) i = pipe_fault w (S i).
Proof. unfold pipe_fault. simpl. by destruct (pipe_faults w). Qed.

(** ** The launch *)

Lemma runDaemonProcess_launches option_ d w name :
  pipe_fault w 0 = None -> pipe_fault w 1 = None ->
  commandArguments d !! 0%nat = Some name -> start_fault w name = None ->
  exists w',
    runDaemonProcess option_ (d, w) = (Returns None, (launched d w, w')) /\
    trace w' = trace w ++ launch_events option_ d w name /\
    incoming w' = incoming w /\ write_fault w' = write_fault w /\
    os_Args w' = os_Args w.
Proof.
  intros P0 P1 Hname Hstart.
  unfold runDaemonProcess, mbind, M_bind, os, osvar, self, update, mret, M_ret.
  cbn [fst snd]. rewrite (os_Pipe_ok w P0). cbn [fst snd].
  rewrite os_Pipe_ok by (by rewrite pipe_fault_next).
  cbn [fst snd]. rewrite Hname. unfold os_StartProcess. cbn. rewrite Hstart.
  eexists. split; [reflexivity|]. cbn. rewrite <- !app_assoc.
  repeat split.
Qed.

(** ** Parameter delivery *)

Lemma sendParamsToDaemonProcess_run d w f :
  paramWritePipe d = Some f ->
  exists w',
    sendParamsToDaemonProcess (d, w) = (Returns (send_result f d w), (d, w')) /\
    trace w' = trace w ++ send_events f d w /\
    incoming w' = incoming w /\ write_fault w' = write_fault w /\
    os_Args w' = os_Args w /\ next_fd w' = next_fd w.
Proof.
  intros Hf.
  unfold sendParamsToDaemonProcess, send_result, send_events, defer, mbind,
    M_bind, os, self, mret, M_ret.
  cbn [fst snd]. rewrite Hf.
  destruct (json_Marshal _) as [b|e]; cbn.
  - destruct (write_fault w (Fd f)); cbn; eexists; (split; [reflexivity|]);
      cbn; rewrite <- ?app_assoc; by repeat split.
  - eexists; (split; [reflexivity|]); by repeat split.
Qed.

(** ** The parent's handshake *)

Lemma Daemonize_handshake config option_ d w :
  daemon d = false -> launches d w -> sends config w ->
  exists w',
    Daemonize config option_ (d, w) =
      (Returns (rangeResponses (responseChan (status_stream w))),
       (launched (set_params config d) w, w')).
Proof.
  intros Hd (P0 & P1 & name & Hname & Hstart) ([b Hb] & Hw).
  destruct (runDaemonProcess_launches (Some option_) (set_params config d) w
              name P0 P1 Hname Hstart) as (w1 & Hrun & Ht1 & Hi1 & Hw1 & _).
  destruct (sendParamsToDaemonProcess_run (launched (set_params config d) w)
              w1 (paramW w) eq_refl) as (w2 & Hsend & Ht2 & Hi2 & Hw2 & _).
  exists w2.
  unfold Daemonize, mbind, M_bind, self, update, mret, M_ret.
  cbn [fst snd]. rewrite Hd. cbn [fst snd]. rewrite Hrun, Hsend.
  unfold send_result. cbn [params launched set_params].
  rewrite Hb, Hw1. cbn [Fd paramW]. rewrite Hw.
  unfold readOutputFromDaemonProcess, mbind, M_bind, self, osvar, mret, M_ret.
  cbn [fst snd outputReadPipe launched outputR Fd]. rewrite Hi2, Hi1.
  reflexivity.
Qed.

End Properties.

(** ** Role detection *)

Section RoleDetection.
Context `{Codec : JSONCodec}.

Lemma scanArguments_spec args : forall dm clean,
  scanArguments args dm clean =
    (dm || bool_decide (DaemonProcessArgument ∈ args),
     clean ++ filter unmarked args).
Proof.
  induction args as [|arg rest IH]; intros dm clean; simpl.
  - by rewrite orb_false_r, app_nil_r.
  - destruct (String.eqb arg DaemonProcessArgument) eqn:E.
    + apply String.eqb_eq in E. subst arg. rewrite IH.
      rewrite filter_cons_False by (unfold unmarked; tauto).
      rewrite (bool_decide_eq_true_2 (_ ∈ _ :: _)) by left.
      by rewrite orb_true_r.
    + apply String.eqb_neq in E. rewrite IH.
      rewrite filter_cons_True by done.
      rewrite <- app_assoc. simpl. f_equal. f_equal.
      apply bool_decide_ext. rewrite elem_of_cons.
      split; [tauto | intros [?|?]; [congruence|done]].
Qed.

Lemma filter_unmarked_clean (args : list string) : DaemonProcessArgument ∉ filter unmarked args.
Proof. rewrite list_elem_of_filter. unfold unmarked. tauto. Qed.

Lemma filter_unmarked_id (args : list string) :
  DaemonProcessArgument ∉ args -> filter unmarked args = args.
Proof.
  induction args as [|arg rest IH]; [done|]. rewrite not_elem_of_cons.
  intros [Hne Hrest]. rewrite filter_cons_True by (unfold unmarked; congruence).
  by rewrite IH.
Qed.

Lemma readCommandArguments_run d w :
  readCommandArguments (d, w) =
    let dm := daemon d || bool_decide (DaemonProcessArgument ∈ os_Args w) in
    let clean := filter unmarked (os_Args w) in
    (Returns tt,
     (set_commandArguments clean (set_daemon dm d),
      if dm then set_Args clean w else w)).
Proof.
  unfold readCommandArguments, mbind, M_bind, self, osvar, update, os, mret, M_ret.
  cbn [fst snd]. rewrite scanArguments_spec. cbn [app].
  by destruct (daemon d || _).
Qed.

End RoleDetection.

(** ** The daemon side *)

Section DaemonSide.
Context `{Codec : JSONCodec}.

Lemma initDaemonProcess_decode_fails d w err :
  daemon d = true ->
  decode_failure (json_DecodeRequest (incoming w 3)) = Some err ->
  exists w',
    initDaemonProcess (d, w) = (Returns (Some err), (wired d, w')) /\
    trace w' = trace w ++ EvClose fd3 ::
                 response_events w (mkResponse "error" (Error err)) /\
    os_Args w' = os_Args w.
Proof.
  intros Hd Hdec.
  unfold initDaemonProcess, readParamsFromParentProcess,
    sendResponseToParentProcess, response_events, defer, mbind, M_bind, self,
    update, os, osvar, mret, M_ret.
  cbn [fst snd]. rewrite Hd. cbn.
  destruct (json_DecodeRequest (incoming w 3)) as [msg rest| |e];
    simpl in Hdec; simplify_eq; cbn;
    destruct (write_fault w 4); cbn; eexists; (split; [reflexivity|]);
    cbn; rewrite <- ?app_assoc; done.
Qed.

Lemma initDaemonProcess_decodes d w msg rest :
  daemon d = true ->
  json_DecodeRequest (incoming w 3) = DecOk msg rest ->
  exists w',
    initDaemonProcess (d, w) =
      (Returns (osError <$> write_fault w 4),
       (set_params (Params msg) (wired d), w')) /\
    trace w' = trace w ++ EvClose fd3 ::
      response_events w (mkResponse "success" "daemon process started successfully").
Proof.
  intros Hd Hdec.
  unfold initDaemonProcess, readParamsFromParentProcess,
    sendResponseToParentProcess, response_events, defer, mbind, M_bind, self,
    update, os, osvar, mret, M_ret.
  cbn [fst snd]. rewrite Hd. cbn. rewrite Hdec. cbn.
  destruct (write_fault w 4); cbn; eexists; (split; [reflexivity|]);
    cbn; rewrite <- ?app_assoc; done.
Qed.

End DaemonSide.

Section Paths.
Context `{Codec : JSONCodec}.

(** Every path of [runDaemonProcess]: what it returns, and that it leaves
    the role, the arguments and the configuration of the receiver alone. *)
Lemma runDaemonProcess_paths option_ d w :
  exists r d' w',
    runDaemonProcess option_ (d, w) = (r, (d', w')) /\
    daemon d' = daemon d /\ commandArguments d' = commandArguments d /\
    params d' = params d /\
    match pipe_fault w 0, pipe_fault w 1, commandArguments d !! 0%nat with
    | Some msg, _, _ => r = Returns (Some (osError msg))
    | None, Some msg, _ => r = Returns (Some (osError msg))
    | None, None, None =>
        r = Panics "runtime error: index out of range [0] with length 0"
    | None, None, Some name =>
        r = Returns (osError <$> start_fault w name)
    end.
Proof.
  unfold runDaemonProcess, mbind, M_bind, os, osvar, self, update, mret, M_ret.
  cbn [fst snd].
  destruct (pipe_fault w 0) as [m0|] eqn:P0.
  { rewrite (os_Pipe_fails w m0 P0). cbn. by eexists _, _, _. }
  rewrite (os_Pipe_ok w P0). cbn [fst snd].
  destruct (pipe_fault w 1) as [m1|] eqn:P1.
  { rewrite (os_Pipe_fails _ m1) by (by rewrite pipe_fault_next).
    cbn. by eexists _, _, _. }
  rewrite os_Pipe_ok by (by rewrite pipe_fault_next). cbn [fst snd].
  destruct (commandArguments d !! 0%nat) as [name|] eqn:Hname.
  2: { cbn. by eexists _, _, _. }
  unfold os_StartProcess. cbn. destruct (start_fault w name); cbn;
    by eexists _, _, _.
Qed.

Lemma sendParamsToDaemonProcess_returns d w :
  exists r w', sendParamsToDaemonProcess (d, w) = (Returns r, (d, w')).
Proof.
  unfold sendParamsToDaemonProcess, defer, mbind, M_bind, os, self, mret, M_ret.
  cbn [fst snd]. unfold File_Write, File_Close.
  destruct (json_Marshal _) as [b|e], (paramWritePipe d) as [f|]; cbn;
    try destruct (write_fault w (Fd f)); cbn; by eexists _, _.
Qed.

Lemma readOutputFromDaemonProcess_returns s :
  exists ch, readOutputFromDaemonProcess s = (Returns ch, s).
Proof.
  unfold readOutputFromDaemonProcess, mbind, M_bind, self, osvar, mret, M_ret.
  cbn [fst snd]. destruct (outputReadPipe s.1); cbn; by eexists.
Qed.

(** [Daemonize] in daemon role (lines 128-130). *)
Lemma Daemonize_in_daemon_role config option_ d w :
  daemon d = true ->
  Daemonize config option_ (d, w) = (Returns (Some ErrNotParentProcess), (d, w)).
Proof.
  intros Hd. unfold Daemonize, mbind, M_bind, self, mret, M_ret.
  cbn [fst snd]. by rewrite Hd.
Qed.

(** Every path of [Daemonize] in parent role. *)
Lemma Daemonize_paths config option_ d w :
  daemon d = false ->
  exists r d' w',
    Daemonize config option_ (d, w) = (r, (d', w')) /\
    params d' = config /\
    ((exists e, r = Returns e) \/
     (r = Panics "runtime error: index out of range [0] with length 0" /\
      commandArguments d = [])).
Proof.
  intros Hd.
  destruct (runDaemonProcess_paths (Some option_) (set_params config d) w)
    as (r1 & d1 & w1 & Hrun & _ & _ & Hp & Hr1).
  unfold Daemonize, mbind, M_bind, self, update, mret, M_ret.
  cbn [fst snd]. rewrite Hd. cbn [fst snd]. rewrite Hrun.
  assert (r1 = Returns None \/ (exists e, r1 = Returns (Some e)) \/
          (r1 = Panics "runtime error: index out of range [0] with length 0"
           /\ commandArguments d = [])) as Hcases.
  { cbn [commandArguments set_params] in Hr1.
    destruct (pipe_fault w 0); [naive_solver|].
    destruct (pipe_fault w 1); [naive_solver|].
    destruct (commandArguments d) as [|name rest]; [naive_solver|]. cbn in Hr1.
    destruct (start_fault w name); naive_solver. }
  destruct Hcases as [->|[[e ->]|[-> Hnil]]].
  - destruct (sendParamsToDaemonProcess_returns d1 w1) as (r2 & w2 & ->).
    destruct r2 as [e|]; cbn.
    + destruct (outputReadPipe d1); cbn; eexists _, _, _; eauto.
    + destruct (readOutputFromDaemonProcess_returns (d1, w2)) as (ch & ->).
      eexists _, _, _; eauto.
  - eexists _, _, _; eauto.
  - eexists _, _, _; eauto.
Qed.

(** [launches] and [sends] are the processes in which the launch and the
    parameter send of [Daemonize] both return nil. *)
Lemma handshake_reached config option_ d w :
  launches d w /\ sends config w <->
  exists s1 s2,
    runDaemonProcess (Some option_) (set_params config d, w) = (Returns None, s1) /\
    sendParamsToDaemonProcess s1 = (Returns None, s2).
Proof.
  split.
  - intros [(P0 & P1 & name & Hname & Hstart) ([b Hb] & Hw)].
    destruct (runDaemonProcess_launches (Some option_) (set_params config d) w
                name P0 P1 Hname Hstart) as (w1 & Hrun & _ & _ & Hw1 & _).
    destruct (sendParamsToDaemonProcess_run (launched (set_params config d) w)
                w1 (paramW w) eq_refl) as (w2 & Hsend & _).
    eexists _, _. split; [exact Hrun|]. rewrite Hsend.
    unfold send_result. cbn. by rewrite Hb, Hw1, Hw.
  - intros (s1 & s2 & Hrun & Hsend).
    destruct (runDaemonProcess_paths (Some option_) (set_params config d) w)
      as (r & d' & w' & Hrun' & _ & _ & _ & Hr).
    rewrite Hrun in Hrun'. injection Hrun' as <- ->.
    cbn [commandArguments set_params] in Hr.
    destruct (pipe_fault w 0) eqn:P0; [done|].
    destruct (pipe_fault w 1) eqn:P1; [done|].
    destruct (commandArguments d !! 0%nat) as [name|] eqn:Hname; [|done].
    destruct (start_fault w name) eqn:Hstart; [done|].
    split; [by repeat split; eauto|].
    destruct (runDaemonProcess_launches (Some option_) (set_params config d) w
                name P0 P1 Hname Hstart) as (w1 & Hrun' & _ & _ & Hw1 & _).
    rewrite Hrun in Hrun'. injection Hrun' as -> ->.
    destruct (sendParamsToDaemonProcess_run (launched (set_params config d) w)
                w1 (paramW w) eq_refl) as (w2 & Hsend' & _).
    rewrite Hsend in Hsend'. injection Hsend' as Hres _.
    unfold send_result in Hres. cbn in Hres. unfold sends.
    destruct (json_Marshal _) as [b|]; [|done].
    rewrite Hw1 in Hres. destruct (write_fault w (next_fd w + 1)); [done|].
    split; [by eexists|done].
Qed.

End Paths.

(** * The claims *)

Section Claims.
Context `{Codec : JSONCodec}.

Lemma rangeResponses_nil ch :
  rangeResponses ch = None ->
  (exists before msg after,
     ch = before ++ msg :: after /\ Forall passed_over before /\
     Status msg = "success")
  \/ Forall passed_over ch.
Proof.
  induction ch as [|msg ch IH]; simpl; intros H; [by right|].
  destruct (String.eqb (Status msg) "success") eqn:Es.
  { apply String.eqb_eq in Es. left. by exists [], msg, ch. }
  destruct (String.eqb (Status msg) "error") eqn:Ee; [done|].
  apply String.eqb_neq in Es, Ee.
  destruct (IH H) as [(before & m & after & -> & Hb & Hm)|Hall].
  - left. exists (msg :: before), m, after. repeat split; [|done].
    by constructor.
  - right. by constructor.
Qed.

(** C1. If the status stream reaches end-of-data without a status message
    (the first decode of the stream answers [io.EOF]), the channel carries
    no message, the loop of [Daemonize] exits, and [Daemonize] returns nil:
    for every parent-role receiver and every process in which the launch and
    the parameter send go through. *)
Theorem C1_silent_stream_returns_nil config option_ d w :
  daemon d = false -> launches d w -> sends config w ->
  json_DecodeResponse (status_stream w) = DecEOF ->
  responseChan (status_stream w) = [] /\
  (Daemonize config option_ (d, w)).1 = Returns None.
Proof.
  intros Hd Hl Hs Heof.
  destruct (Daemonize_handshake config option_ d w Hd Hl Hs) as [w' ->].
  rewrite responseChan_unfold, Heof. done.
Qed.

(** C2, as amended. [Daemonize] returns nil only when the first message
    with status ["success"] or ["error"] on the status stream is a success
    message, or when the stream ends with no such message at all. *)
Theorem C2_nil_return config option_ d w :
  daemon d = false -> launches d w -> sends config w ->
  (Daemonize config option_ (d, w)).1 = Returns None ->
  (exists before msg after,
     responseChan (status_stream w) = before ++ msg :: after /\
     Forall passed_over before /\ Status msg = "success")
  \/ Forall passed_over (responseChan (status_stream w)).
Proof.
  intros Hd Hl Hs.
  destruct (Daemonize_handshake config option_ d w Hd Hl Hs) as [w' ->].
  cbn [fst]. intros [= H]. by apply rangeResponses_nil.
Qed.

(** C3. The child's descriptor table is the fixed slot contract: slots 0, 1
    and 2 are the option's [Stdin], [Stdout] and [Stderr] where they are not
    nil and the parent's own [os.Stdin], [os.Stdout] and [os.Stderr]
    otherwise, slot 3 is the read end of the parameter pipe and slot 4 the
    write end of the status pipe; and the daemon-side initializer takes
    descriptor 3 as its parameter read end and descriptor 4 as its status
    write end, and touches these two only. *)
Theorem C3_descriptor_table option_ d w dd wd :
  launches d w -> daemon dd = true ->
  let slot (own : option File) (given : DaemonizeOption -> option File) :=
    match option_ ≫= given with Some f => Some f | None => own end in
  (exists name argv attr proc d' w',
     runDaemonProcess option_ (d, w) = (Returns None, (d', w')) /\
     trace w' = trace w ++
       [EvPipe (paramR w) (paramW w); EvPipe (outputR w) (outputW w);
        EvStartProcess name argv attr proc] /\
     attr_Files attr =
       [slot (os_Stdin w) Stdin; slot (os_Stdout w) Stdout;
        slot (os_Stderr w) Stderr; Some (paramR w); Some (outputW w)]) /\
  (exists r dd' wd' response,
     initDaemonProcess (dd, wd) = (r, (dd', wd')) /\
     paramReadPipe dd' = os_NewFile 3 "paramReadPipe" /\
     outputWritePipe dd' = os_NewFile 4 "outputWritePipe" /\
     trace wd' = trace wd ++ EvClose fd3 :: response_events wd response).
Proof.
  intros (P0 & P1 & name & Hname & Hstart) Hdd slot. split.
  - destruct (runDaemonProcess_launches option_ d w name P0 P1 Hname Hstart)
      as (w' & Hrun & Ht & _).
    eexists name, _, _, _, _, w'. split; [exact Hrun|]. split; [exact Ht|].
    subst slot. destruct option_ as [[dir [i|] [o|] [e|] env]|]; reflexivity.
  - destruct (json_DecodeRequest (incoming wd 3)) as [msg rest| |err] eqn:E.
    + destruct (initDaemonProcess_decodes dd wd msg rest Hdd E) as (wd' & -> & Ht).
      by eexists _, _, wd', _.
    + destruct (initDaemonProcess_decode_fails dd wd io_EOF Hdd) as (wd' & -> & Ht & _);
        [by rewrite E|]. by eexists _, _, wd', _.
    + destruct (initDaemonProcess_decode_fails dd wd err Hdd) as (wd' & -> & Ht & _);
        [by rewrite E|]. by eexists _, _, wd', _.
Qed.

(** C4. Role detection at construction: when the marker [--daemon_process]
    is among the arguments the role is Daemon, and the marker is gone both
    from the stored list and from the overwritten [os.Args]; when it is not,
    the role is Parent and the list the caller observes is [os.Args],
    unchanged.  Detection always returns, and the constructor of a parent
    returns the receiver and a nil error. *)
Theorem C4_role_detection w :
  let marked := bool_decide (DaemonProcessArgument ∈ os_Args w) in
  let cleaned := filter unmarked (os_Args w) in
  exists d' w',
    readCommandArguments (Daemonizer_zero, w) = (Returns tt, (d', w')) /\
    IsDaemon d' = marked /\
    GetCommandArguments d' = cleaned /\ os_Args w' = cleaned /\
    (DaemonProcessArgument ∉ cleaned) /\
    (if marked then True
     else (cleaned = os_Args w /\ w' = w /\
           NewDaemonizer w = (Returns (Some d', None), w))).
Proof.
  intros marked cleaned. subst marked cleaned.
  rewrite readCommandArguments_run. cbn zeta.
  cbn [daemon Daemonizer_zero orb].
  eexists _, _. split; [reflexivity|]. cbn.
  split; [done|]. split; [done|].
  pose proof (filter_unmarked_clean (os_Args w)) as Hclean.
  destruct (bool_decide (DaemonProcessArgument ∈ os_Args w)) eqn:Hm; [done|].
  pose proof (filter_unmarked_id _ (proj1 (bool_decide_eq_false _) Hm)) as Hid.
  repeat split; try done.
  unfold NewDaemonizer, mbind, M_bind, self, mret, M_ret.
  rewrite readCommandArguments_run. cbn zeta.
  cbn [daemon Daemonizer_zero orb]. rewrite Hm. reflexivity.
Qed.

(** C5. A failed parameter decode in the daemon is seen on both sides.
    The daemon-side initializer writes the status record with status
    ["error"] and the decode error's message on descriptor 4 and then
    returns that error, so that [NewDaemonizer] fails with it; and the
    parent's [Daemonize], on receiving that record, returns an error that is
    not nil and whose message is the daemon's. *)
Theorem C5_decode_failure_on_both_sides wd err config option_ d wp rest :
  DaemonProcessArgument ∈ os_Args wd ->
  decode_failure (json_DecodeRequest (incoming wd 3)) = Some err ->
  write_fault wd 4 = None ->
  daemon d = false -> launches d wp -> sends config wp ->
  json_DecodeResponse (status_stream wp) =
    DecOk (mkResponse "error" (Error err)) rest ->
  (exists wd',
     NewDaemonizer wd = (Returns (None, Some err), wd') /\
     trace wd' = trace wd ++
       [EvClose fd3;
        EvWrite fd4 (json_Encode (mkResponse "error" (Error err)));
        EvClose fd4]) /\
  (exists e,
     (Daemonize config option_ (d, wp)).1 = Returns (Some e) /\
     Error e = Error err).
Proof.
  intros Hmark Hdec Hw4 Hd Hl Hs Hrecv. split.
  - unfold NewDaemonizer, mbind, M_bind, self, mret, M_ret.
    rewrite readCommandArguments_run. cbn zeta.
    cbn [daemon Daemonizer_zero orb]. rewrite (bool_decide_eq_true_2 _ Hmark).
    cbn [fst snd daemon set_daemon set_commandArguments].
    edestruct (initDaemonProcess_decode_fails) as (wd' & -> & Ht & _);
      [| |exists wd'; split; [reflexivity|]].
    + reflexivity.
    + exact Hdec.
    + rewrite Ht. unfold response_events. cbn [write_fault set_Args incoming trace].
      by rewrite Hw4.
  - destruct (Daemonize_handshake config option_ d wp Hd Hl Hs) as [w' ->].
    rewrite responseChan_unfold, Hrecv. by eexists.
Qed.

(** C6. Every failure of the kernel to create either pipe or to start the
    new process image makes the launch, and with it [Daemonize], fail: the
    error returned is the error package [os] reported, unchanged (the
    sentinel [ErrRunDaemonFailed] is never the one returned). *)
Theorem C6_launch_failure_propagates config option_ d w msg :
  daemon d = false -> launch_failure d w msg ->
  (exists s', runDaemonProcess (Some option_) (d, w) =
                (Returns (Some (osError msg)), s')) /\
  (Daemonize config option_ (d, w)).1 = Returns (Some (osError msg)) /\
  osError msg <> ErrRunDaemonFailed.
Proof.
  intros Hd Hfail.
  assert (forall d0, commandArguments d0 = commandArguments d ->
            exists s', runDaemonProcess (Some option_) (d0, w) =
                         (Returns (Some (osError msg)), s')) as Hrun.
  { intros d0 Hargs.
    destruct (runDaemonProcess_paths (Some option_) d0 w)
      as (r & d' & w' & -> & _ & _ & _ & Hr).
    rewrite Hargs in Hr. exists (d', w'). f_equal.
    destruct Hfail as [P0|P0 P1|name P0 P1 Hname Hstart].
    - by rewrite P0 in Hr.
    - by rewrite P0, P1 in Hr.
    - by rewrite P0, P1, Hname, Hstart in Hr. }
  split; [by apply Hrun|]. split; [|done].
  destruct (Hrun (set_params config d) eq_refl) as [s' Hs'].
  unfold Daemonize, mbind, M_bind, self, update, mret, M_ret.
  cbn [fst snd]. rewrite Hd. cbn [fst snd]. by rewrite Hs'.
Qed.

(** C7. Parameter delivery writes exactly the serialized envelope on the
    write end of the parameter pipe and then closes that end; it returns
    [ErrParamNotSerializable] exactly when the envelope does not serialize,
    and [ErrParamSendFailed] exactly when it serializes and the write
    fails. It always returns and leaves the receiver unchanged. *)
Theorem C7_parameter_delivery d w :
  let request := mkInitRequest (params d) in
  exists r w',
    sendParamsToDaemonProcess (d, w) = (Returns r, (d, w')) /\
    (forall f b,
       paramWritePipe d = Some f -> json_Marshal request = inl b ->
       write_fault w (Fd f) = None ->
       r = None /\ trace w' = trace w ++ [EvWrite f b; EvClose f]) /\
    (forall f, paramWritePipe d = Some f -> r <> None ->
       trace w' = trace w ++ [EvClose f]) /\
    (r = Some ErrParamNotSerializable <-> exists e, json_Marshal request = inr e) /\
    (r = Some ErrParamSendFailed <->
     exists b, json_Marshal request = inl b /\
               is_Some (File_Write (paramWritePipe d) b w).1.2).
Proof.
  intros request. subst request.
  unfold sendParamsToDaemonProcess, defer, mbind, M_bind, os, self, mret, M_ret.
  cbn [fst snd]. unfold File_Write, File_Close.
  destruct (json_Marshal _) as [b|e], (paramWritePipe d) as [f|]; cbn;
    try destruct (write_fault w (Fd f)) eqn:Hw; cbn;
    eexists _, _; (split; [reflexivity|]); cbn;
    rewrite <- ?app_assoc;
    repeat split; intros;
    repeat match goal with
           | H : ex _ |- _ => destruct H
           | H : _ /\ _ |- _ => destruct H
           | H : is_Some None |- _ => by destruct H
           end;
    simplify_eq; eauto.
Qed.

(** C8. In Daemon role [Daemonize] returns [ErrNotParentProcess] and does
    nothing else: the receiver and the process are as before, so no pipe is
    created and no process started. *)
Theorem C8_daemon_cannot_daemonize config option_ d w :
  daemon d = true ->
  Daemonize config option_ (d, w) = (Returns (Some ErrNotParentProcess), (d, w)).
Proof. apply Daemonize_in_daemon_role. Qed.

(** C9. The launch indexes element 0 of the cleaned argument list: with an
    empty list a parent whose two pipes are created panics there (index out
    of range); the marker is inserted only after an element of index 0; and
    [Daemonize] returns in every process exactly when the list is not
    empty. *)
Theorem C9_launch_needs_program_name config option_ d :
  daemon d = false ->
  (forall w, commandArguments d = [] ->
     pipe_fault w 0 = None -> pipe_fault w 1 = None ->
     (Daemonize config option_ (d, w)).1 =
       Panics "runtime error: index out of range [0] with length 0") /\
  markArguments 0 [] [] = [] /\
  (forall name rest,
     markArguments 0 (name :: rest) [] = name :: DaemonProcessArgument :: rest) /\
  ((forall w, exists r, (Daemonize config option_ (d, w)).1 = Returns r) <->
   commandArguments d <> []).
Proof.
  intros Hd.
  assert (forall w, commandArguments d = [] ->
     pipe_fault w 0 = None -> pipe_fault w 1 = None ->
     (Daemonize config option_ (d, w)).1 =
       Panics "runtime error: index out of range [0] with length 0") as Hpanic.
  { intros w Hnil P0 P1.
    destruct (runDaemonProcess_paths (Some option_) (set_params config d) w)
      as (r & d' & w' & Hrun & _ & _ & _ & Hr).
    cbn [commandArguments set_params] in Hr. rewrite P0, P1, Hnil in Hr.
    cbn in Hr. subst r.
    unfold Daemonize, mbind, M_bind, self, update, mret, M_ret.
    cbn [fst snd]. rewrite Hd. cbn [fst snd]. by rewrite Hrun. }
  split; [exact Hpanic|]. split; [reflexivity|]. split.
  { intros name rest. cbn.
    assert (forall args i acc, markArguments (S i) args acc = acc ++ args) as Hrest.
    { induction args as [|a args IH]; intros i acc; cbn; [by rewrite app_nil_r|].
      by rewrite IH, <- app_assoc. }
    by rewrite Hrest. }
  split.
  - intros Htotal Hnil.
    destruct (Htotal (Scenario.process [] 0 [])) as [r Hr].
    rewrite Hpanic in Hr; done.
  - intros Hne w.
    destruct (Daemonize_paths config option_ d w Hd)
      as (r & d' & w' & -> & _ & [[e ->]|[_ Hnil]]); [by eexists|done].
Qed.

(** C10. [Daemonize] stores the supplied configuration before it launches
    the child, and nothing rolls it back: after every error return other
    than [ErrNotParentProcess], [GetParams] on the receiver is the supplied
    mapping. *)
Theorem C10_params_kept_on_error config option_ d w e d' w' :
  Daemonize config option_ (d, w) = (Returns (Some e), (d', w')) ->
  e <> ErrNotParentProcess ->
  GetParams d' = config.
Proof.
  intros Hrun Hne. destruct (daemon d) eqn:Hd.
  - rewrite (Daemonize_in_daemon_role config option_ d w Hd) in Hrun.
    by simplify_eq.
  - destruct (Daemonize_paths config option_ d w Hd)
      as (r & d1 & w1 & Hrun' & Hp & _).
    rewrite Hrun in Hrun'. by simplify_eq.
Qed.

End Claims.

(** * The claims on a concrete parent and daemon *)

Section Examples.
Import MiniJSON MiniJSONFacts Scenario.

Ltac launch_goes_through := repeat split; by eexists.
Ltac send_goes_through := split; [eexists; vm_compute; reflexivity | reflexivity].

Lemma C1_silent_stream_witness :
  responseChan (status_stream (parent_world [])) = [] /\
  (Daemonize config options (parent, parent_world [])).1 = Returns None.
Proof.
  apply (C1_silent_stream_returns_nil config options parent (parent_world [])).
  - reflexivity.
  - launch_goes_through.
  - send_goes_through.
  - reflexivity.
Defined.

(** C2, as stated, fails on the silent stream: the launch and the send go
    through, [Daemonize] returns nil, and no message was delivered. *)
Lemma C2_counterexample :
  daemon parent = false /\ launches parent (parent_world []) /\
  sends config (parent_world []) /\
  (Daemonize config options (parent, parent_world [])).1 = Returns None /\
  ~ exists msg, msg ∈ responseChan (status_stream (parent_world [])) /\
                Status msg = "success".
Proof.
  split; [reflexivity|]. split; [launch_goes_through|].
  split; [send_goes_through|]. split; [reflexivity|].
  intros (msg & Hin & _). vm_compute in Hin. by apply elem_of_nil in Hin.
Qed.

Lemma C2_nil_return_witness :
  (exists before msg after,
     responseChan (status_stream (parent_world started)) = before ++ msg :: after /\
     Forall passed_over before /\ Status msg = "success")
  \/ Forall passed_over (responseChan (status_stream (parent_world started))).
Proof.
  apply (C2_nil_return config options parent (parent_world started)).
  - reflexivity.
  - launch_goes_through.
  - send_goes_through.
  - vm_compute. reflexivity.
Defined.

Lemma C3_descriptor_table_witness :
  (exists name argv attr proc d' w',
     runDaemonProcess (Some options) (parent, parent_world []) =
       (Returns None, (d', w')) /\
     trace w' =
       [EvPipe (mkFile 5 "|0") (mkFile 6 "|1");
        EvPipe (mkFile 7 "|0") (mkFile 8 "|1");
        EvStartProcess name argv attr proc] /\
     attr_Files attr =
       [Some stdin; Some stdout; Some stderr;
        Some (mkFile 5 "|0"); Some (mkFile 8 "|1")]) /\
  (exists r dd' wd' response,
     initDaemonProcess (set_daemon true parent, daemon_world []) =
       (r, (dd', wd')) /\
     paramReadPipe dd' = Some (mkFile 3 "paramReadPipe") /\
     outputWritePipe dd' = Some (mkFile 4 "outputWritePipe") /\
     trace wd' = [EvClose fd3; EvWrite fd4 (Encode response); EvClose fd4]).
Proof.
  assert (launches parent (parent_world [])) as Hl by launch_goes_through.
  exact (C3_descriptor_table (Some options) parent (parent_world [])
           (set_daemon true parent) (daemon_world []) Hl eq_refl).
Defined.

Lemma C5_decode_failure_witness :
  (exists wd',
     NewDaemonizer (daemon_world (bytes "garbage")) =
       (Returns (None, Some syntax_error), wd') /\
     trace wd' = [EvClose fd3; EvWrite fd4 refused; EvClose fd4]) /\
  (exists e,
     (Daemonize config options (parent, parent_world refused)).1 =
       Returns (Some e) /\
     Error e = "invalid character in JSON input").
Proof.
  assert (DaemonProcessArgument ∈ os_Args (daemon_world (bytes "garbage")))
    as Hmark by (vm_compute; right; left).
  assert (decode_failure
            (json_DecodeRequest (incoming (daemon_world (bytes "garbage")) 3))
          = Some syntax_error) as Hdec by (vm_compute; reflexivity).
  assert (launches parent (parent_world refused)) as Hl by launch_goes_through.
  assert (sends config (parent_world refused)) as Hs by send_goes_through.
  assert (json_DecodeResponse (status_stream (parent_world refused))
          = DecOk (mkResponse "error" (Error syntax_error)) [Byte.x0a])
    as Hrecv by (vm_compute; reflexivity).
  exact (C5_decode_failure_on_both_sides (daemon_world (bytes "garbage"))
           syntax_error config options parent (parent_world refused)
           [Byte.x0a] Hmark Hdec eq_refl eq_refl Hl Hs Hrecv).
Defined.

Lemma C6_launch_failure_witness :
  (exists s', runDaemonProcess (Some options) (parent, exhausted) =
                (Returns (Some (osError "pipe2: too many open files")), s')) /\
  (Daemonize config options (parent, exhausted)).1 =
    Returns (Some (osError "pipe2: too many open files")) /\
  osError "pipe2: too many open files" <> ErrRunDaemonFailed.
Proof.
  apply (C6_launch_failure_propagates config options parent exhausted).
  - reflexivity.
  - apply status_pipe_fails; reflexivity.
Defined.

Lemma C8_daemon_cannot_daemonize_witness :
  Daemonize config options (set_daemon true parent, daemon_world []) =
    (Returns (Some ErrNotParentProcess),
     (set_daemon true parent, daemon_world [])).
Proof.
  apply (C8_daemon_cannot_daemonize config options (set_daemon true parent)
           (daemon_world [])).
  reflexivity.
Defined.

Lemma C9_launch_needs_program_name_witness :
  (Daemonize config options (nameless, process [] 0 [])).1 =
    Panics "runtime error: index out of range [0] with length 0".
Proof.
  apply (proj1 (C9_launch_needs_program_name config options nameless eq_refl));
    reflexivity.
Defined.

Lemma C10_params_kept_witness :
  GetParams (Daemonize config options (parent, exhausted)).2.1 = config.
Proof.
  apply (C10_params_kept_on_error config options parent exhausted
           (osError "pipe2: too many open files") _
           (Daemonize config options (parent, exhausted)).2.2).
  - vm_compute. reflexivity.
  - discriminate.
Defined.

(** The scenario of [example.go], end to end: the parent writes the
    envelope on descriptor 6; the child that reads it on descriptor 3 is
    constructed, holds the configuration (numbers as float64) and reports
    success; and the parent that reads this report returns nil. *)
Example handshake_scenario :
  exists envelope reply child,
    EvWrite (mkFile 6 "|1") envelope
      ∈ trace (Daemonize config options (parent, parent_world [])).2.2 /\
    (NewDaemonizer (daemon_world envelope)).1 = Returns (Some child, None) /\
    IsDaemon child = true /\
    GetCommandArguments child = ["/usr/bin/echod"; "-v"] /\
    GetParams child =
      Some (<["host" := GoString "localhost"]> (<["port" := GoFloat64 8080]> ∅)) /\
    trace (NewDaemonizer (daemon_world envelope)).2 =
      [EvClose fd3; EvWrite fd4 reply; EvClose fd4] /\
    (Daemonize config options (parent, parent_world reply)).1 = Returns None.
Proof.
  eexists _, _, _. split; [|split].
  - vm_compute. do 3 right. left.
  - vm_compute. reflexivity.
  - repeat split; vm_compute; reflexivity.
Qed.

End Examples.

(** * Further properties of the package *)

Section Further.
Context `{Codec : JSONCodec}.

(** The constructor in a process whose arguments hold the marker: role
    detection, then the daemon-side initialization. *)
Lemma NewDaemonizer_marked w :
  DaemonProcessArgument ∈ os_Args w ->
  NewDaemonizer w =
    let clean := filter unmarked (os_Args w) in
    match initDaemonProcess
            (set_commandArguments clean (set_daemon true Daemonizer_zero),
             set_Args clean w) with
    | (Returns (Some err), (_, w')) => (Returns (None, Some err), w')
    | (Returns None, (d, w')) => (Returns (Some d, None), w')
    | (Panics msg, (_, w')) => (Panics msg, w')
    end.
Proof.
  intros Hmark. unfold NewDaemonizer, mbind, M_bind, self, mret, M_ret.
  rewrite readCommandArguments_run. cbn zeta.
  cbn [daemon Daemonizer_zero orb]. rewrite (bool_decide_eq_true_2 _ Hmark).
  reflexivity.
Qed.

Lemma initDaemonProcess_decodes_args d w msg rest :
  daemon d = true ->
  json_DecodeRequest (incoming w 3) = DecOk msg rest ->
  exists w',
    initDaemonProcess (d, w) =
      (Returns (osError <$> write_fault w 4),
       (set_params (Params msg) (wired d), w')) /\
    trace w' = trace w ++ EvClose fd3 :: response_events w started_record /\
    os_Args w' = os_Args w.
Proof.
  intros Hd Hdec.
  unfold initDaemonProcess, readParamsFromParentProcess,
    sendResponseToParentProcess, response_events, defer, mbind, M_bind, self,
    update, os, osvar, mret, M_ret.
  cbn [fst snd]. rewrite Hd. cbn. rewrite Hdec. cbn.
  destruct (write_fault w 4); cbn; eexists; (split; [reflexivity|]);
    cbn; rewrite <- ?app_assoc; done.
Qed.

(** X1. Called in parent role, the daemon-side initialization returns
    [ErrNotDaemonProcess] before it touches anything: descriptors 3 and 4
    are not wired, nothing is read, written or closed. *)
Theorem X1_init_needs_daemon_role d w :
  daemon d = false ->
  initDaemonProcess (d, w) = (Returns (Some ErrNotDaemonProcess), (d, w)).
Proof.
  intros Hd. unfold initDaemonProcess, mbind, M_bind, self, mret, M_ret.
  cbn [fst snd]. by rewrite Hd.
Qed.


(** X3. A daemon that decoded its parameters but cannot write the success
    record is not constructed: [NewDaemonizer] returns the write error and
    no receiver, having closed descriptors 3 and 4 and written nothing. *)
Theorem X3_daemon_cannot_report w msg rest reason :
  DaemonProcessArgument ∈ os_Args w ->
  json_DecodeRequest (incoming w 3) = DecOk msg rest ->
  write_fault w 4 = Some reason ->
  exists w',
    NewDaemonizer w = (Returns (None, Some (osError reason)), w') /\
    trace w' = trace w ++ [EvClose fd3; EvClose fd4].
Proof.
  intros Hmark Hdec Hw. rewrite (NewDaemonizer_marked w Hmark). cbn zeta.
  edestruct initDaemonProcess_decodes_args as (w' & -> & Ht & Ha);
    [reflexivity|exact Hdec|].
  cbn [write_fault set_Args] in *. rewrite Hw. cbn [fmap option_fmap option_map].
  exists w'. split; [reflexivity|].
  rewrite Ht. unfold response_events. cbn. by rewrite Hw.
Qed.

(** X4. Role detection is idempotent: run again on the receiver and the
    process it left, [readCommandArguments] changes nothing; in particular
    a daemon stays a daemon although the marker is gone from [os.Args]. *)
Theorem X4_role_detection_idempotent (s : State) :
  readCommandArguments (readCommandArguments s).2 =
    (Returns tt, (readCommandArguments s).2).
Proof.
  destruct s as [d w]. rewrite readCommandArguments_run. cbn zeta.
  cbn [snd]. rewrite readCommandArguments_run. cbn zeta.
  pose proof (filter_unmarked_clean (os_Args w)) as Hclean.
  destruct (daemon d) eqn:Hd; cbn [orb].
  - cbn. rewrite (filter_unmarked_id _ Hclean). by destruct d.
  - destruct (bool_decide (DaemonProcessArgument ∈ os_Args w)) eqn:Hm.
    + cbn. rewrite (filter_unmarked_id _ Hclean). by destruct d.
    + cbn. rewrite Hm. cbn.
      rewrite !(filter_unmarked_id _ (proj1 (bool_decide_eq_false _) Hm)).
      by destruct d.
Qed.

Lemma markArguments_rest args : forall i acc,
  markArguments (S i) args acc = acc ++ args.
Proof.
  induction args as [|a args IH]; intros i acc; cbn; [by rewrite app_nil_r|].
  by rewrite IH, <- app_assoc.
Qed.

Lemma markArguments_cons name rest :
  markArguments 0 (name :: rest) [] = name :: DaemonProcessArgument :: rest.
Proof. cbn. by rewrite markArguments_rest. Qed.

(** X5. The marker makes the round trip: the argument vector the parent
    hands to [os.StartProcess], scanned by the child's role detection,
    gives the daemon role and the very list the parent observes. *)
Theorem X5_marker_round_trip (w wd : World) :
  let d := (readCommandArguments (Daemonizer_zero, w)).2.1 in
  GetCommandArguments d <> [] ->
  os_Args wd = markArguments 0 (GetCommandArguments d) [] ->
  exists child wd',
    readCommandArguments (Daemonizer_zero, wd) = (Returns tt, (child, wd')) /\
    IsDaemon child = true /\
    GetCommandArguments child = GetCommandArguments d /\
    os_Args wd' = GetCommandArguments d.
Proof.
  intros d. subst d. rewrite !readCommandArguments_run. cbn zeta.
  cbn [snd fst GetCommandArguments commandArguments set_commandArguments
       set_daemon Daemonizer_zero daemon orb].
  pose proof (filter_unmarked_clean (os_Args w)) as Hclean.
  destruct (filter unmarked (os_Args w)) as [|name rest] eqn:E; [done|].
  intros _ Hargs. rewrite Hargs, markArguments_cons.
  assert (filter unmarked (name :: DaemonProcessArgument :: rest) = name :: rest)
    as Hf.
  { apply not_elem_of_cons in Hclean as [Hn Hr].
    rewrite filter_cons_True by (unfold unmarked; congruence).
    rewrite filter_cons_False by (unfold unmarked; tauto).
    by rewrite (filter_unmarked_id _ Hr). }
  rewrite Hf.
  rewrite (bool_decide_eq_true_2 (_ ∈ _)) by (right; left).
  by eexists _, _.
Qed.

End Further.

Section FurtherParent.
Context `{Codec : JSONCodec}.

(** Every path of the launch, with its events: an error or a panic leaves
    the receiver as it was and only created pipes. *)
Lemma runDaemonProcess_events option_ d w :
  exists r d' w' events,
    runDaemonProcess option_ (d, w) = (r, (d', w')) /\
    trace w' = trace w ++ events /\
    write_fault w' = write_fault w /\ incoming w' = incoming w /\
    match r with
    | Returns None =>
        d' = launched d w /\ Forall is_launch_event events
    | _ => d' = d /\ Forall is_pipe_event events
    end.
Proof.
  unfold runDaemonProcess, mbind, M_bind, os, osvar, self, update, mret, M_ret.
  cbn [fst snd].
  assert (forall l : list Event, l = l ++ []) as Hnil
    by (intros; by rewrite app_nil_r).
  destruct (pipe_fault w 0) as [m0|] eqn:P0.
  { rewrite (os_Pipe_fails w m0 P0). cbn. eexists _, _, _, [].
    split; [reflexivity|]. cbn. by repeat split. }
  rewrite (os_Pipe_ok w P0). cbn [fst snd].
  destruct (pipe_fault w 1) as [m1|] eqn:P1.
  { rewrite (os_Pipe_fails _ m1) by (by rewrite pipe_fault_next).
    cbn. eexists _, _, _, [_]. split; [reflexivity|]. cbn.
    repeat split. by repeat constructor. }
  rewrite os_Pipe_ok by (by rewrite pipe_fault_next). cbn [fst snd].
  destruct (commandArguments d !! 0%nat) as [name|] eqn:Hname.
  2: { cbn. eexists _, _, _, [_; _]. split; [reflexivity|]. cbn.
       rewrite <- ?app_assoc. repeat split. by repeat constructor. }
  unfold os_StartProcess. cbn. destruct (start_fault w name); cbn.
  - eexists _, _, _, [_; _]. split; [reflexivity|]. cbn.
    rewrite <- ?app_assoc. repeat split. by repeat constructor.
  - eexists _, _, _, [_; _; _]. split; [reflexivity|]. cbn.
    rewrite <- ?app_assoc. repeat split. by repeat constructor.
Qed.


Lemma rangeResponses_decisive before : forall msg after,
  Forall passed_over before -> ~ passed_over msg ->
  rangeResponses (before ++ msg :: after) =
    if String.eqb (Status msg) "success" then None
    else Some (errors_New (Message msg)).
Proof.
  induction before as [|m before IH]; intros msg after Hall Hmsg; cbn.
  - destruct (String.eqb (Status msg) "success") eqn:Es; [done|].
    destruct (String.eqb (Status msg) "error") eqn:Ee; [done|].
    apply String.eqb_neq in Es, Ee. by destruct Hmsg.
  - apply Forall_cons in Hall as [[Hs He] Hall].
    apply String.eqb_neq in Hs, He. rewrite Hs, He. by apply IH.
Qed.

(** X7. After the launch and the send, the outcome of [Daemonize] is
    decided by the first record of the status stream whose status is
    ["success"] or ["error"]: nil for a success record, an error carrying
    the record's message for an error record.  Records of any other
    status before it are skipped, and what follows it is never looked
    at. *)
Theorem X7_first_decisive_record config option_ d w before msg after :
  daemon d = false -> launches d w -> sends config w ->
  responseChan (status_stream w) = before ++ msg :: after ->
  Forall passed_over before -> ~ passed_over msg ->
  (Daemonize config option_ (d, w)).1 =
    Returns (if String.eqb (Status msg) "success" then None
             else Some (errors_New (Message msg))).
Proof.
  intros Hd Hl Hs Hch Hbefore Hmsg.
  destruct (Daemonize_handshake config option_ d w Hd Hl Hs) as [w' ->].
  cbn [fst]. rewrite Hch. f_equal. by apply rangeResponses_decisive.
Qed.

(** X8. A status stream that does not decode makes [Daemonize] fail with
    the decoder's message: the listener turns the decode error into an
    error record (lines 266-272), which the loop of [Daemonize] returns
    as a fresh error. *)
Theorem X8_malformed_status_stream config option_ d w err :
  daemon d = false -> launches d w -> sends config w ->
  json_DecodeResponse (status_stream w) = DecErr err ->
  (Daemonize config option_ (d, w)).1 = Returns (Some (errors_New (Error err))).
Proof.
  intros Hd Hl Hs Hdec.
  destruct (Daemonize_handshake config option_ d w Hd Hl Hs) as [w' ->].
  by rewrite responseChan_unfold, Hdec.
Qed.

(** X9. A launch that fails stores nothing: on every error return of
    [runDaemonProcess] the receiver is as before (no pipe end, no
    process), and the process has only created pipes; the ends of a pipe
    created before the failure are neither closed nor kept. *)
Theorem X9_failed_launch_keeps_nothing option_ d w e d' w' :
  runDaemonProcess option_ (d, w) = (Returns (Some e), (d', w')) ->
  d' = d /\
  exists events,
    trace w' = trace w ++ events /\ Forall is_pipe_event events /\
    (length events <= 2)%nat /\
    forall f, EvClose f ∉ events.
Proof.
  intros Hrun.
  destruct (runDaemonProcess_events option_ d w)
    as (r & d1 & w1 & events & Hrun' & Ht & _ & _ & Hr).
  destruct (runDaemonProcess_paths option_ d w)
    as (r2 & d2 & w2 & Hrun2 & _ & _ & _ & Hcase).
  rewrite Hrun in Hrun', Hrun2. simplify_eq. destruct Hr as [-> Hev].
  split; [done|]. exists events. repeat split; try done.
  - clear Hcase. unfold runDaemonProcess, mbind, M_bind, os, osvar, self,
      update, mret, M_ret in Hrun. cbn [fst snd] in Hrun.
    destruct (pipe_fault w 0) as [m0|] eqn:P0.
    { rewrite (os_Pipe_fails w m0 P0) in Hrun. cbn in Hrun. simplify_eq.
      assert (events = []) as -> by (by eapply app_inv_head; rewrite app_nil_r).
      cbn. lia. }
    rewrite (os_Pipe_ok w P0) in Hrun. cbn [fst snd] in Hrun.
    destruct (pipe_fault w 1) as [m1|] eqn:P1.
    { rewrite (os_Pipe_fails _ m1) in Hrun by (by rewrite pipe_fault_next).
      cbn in Hrun. simplify_eq. cbn in Ht.
      apply app_inv_head in Ht. subst events. cbn. lia. }
    rewrite os_Pipe_ok in Hrun by (by rewrite pipe_fault_next).
    cbn [fst snd] in Hrun.
    destruct (commandArguments d !! 0%nat) as [name|]; [|done].
    unfold os_StartProcess in Hrun. cbn in Hrun.
    destruct (start_fault w name); [|done]. cbn in Hrun. simplify_eq.
    cbn in Ht. rewrite <- app_assoc in Ht. apply app_inv_head in Ht.
    subst events. cbn. lia.
  - intros f Hin. rewrite Forall_forall in Hev. by apply Hev in Hin.
Qed.

(** X10. The child is started as the program named by argument 0, with
    the marker right after that name and the other arguments in order, in
    the working directory and with the environment of the option (the
    empty directory and the nil environment standing for the parent's),
    and the receiver keeps its process handle. *)
Theorem X10_child_command_line option_ d w name rest :
  commandArguments d = name :: rest ->
  pipe_fault w 0 = None -> pipe_fault w 1 = None -> start_fault w name = None ->
  exists attr d' w',
    runDaemonProcess option_ (d, w) = (Returns None, (d', w')) /\
    last (trace w') =
      Some (EvStartProcess name (name :: DaemonProcessArgument :: rest) attr
              (mkProcess (next_pid w))) /\
    attr_Dir attr = from_option Dir "" option_ /\
    attr_Env attr = option_ ≫= Env /\
    daemonProc d' = Some (mkProcess (next_pid w)).
Proof.
  intros Hargs P0 P1 Hstart.
  destruct (runDaemonProcess_launches option_ d w name P0 P1) as
    (w' & Hrun & Ht & _); [by rewrite Hargs|done|].
  eexists _, _, w'. split; [exact Hrun|]. split.
  - rewrite Ht. unfold launch_events. rewrite Hargs, markArguments_cons.
    rewrite last_app. reflexivity.
  - destruct option_ as [[dir i o e env]|]; cbn; [|done].
    repeat split; [|by destruct env].
    destruct (String.eqb dir "") eqn:E; [|done].
    by apply String.eqb_eq in E.
Qed.

(** X14. When the parameter send fails (the mapping does not serialize,
    or the write fails), the child is already running: [Daemonize] returns
    the send error after the process start, having closed the parameter
    write end and then the status read end, and the receiver keeps the
    handle of the started process. *)
Theorem X14_send_failure_after_start config option_ d w :
  daemon d = false -> launches d w ->
  (exists e, json_Marshal (mkInitRequest config) = inr e) \/
  is_Some (write_fault w (next_fd w + 1)) ->
  exists err d' w' name,
    Daemonize config option_ (d, w) = (Returns (Some err), (d', w')) /\
    err = match json_Marshal (mkInitRequest config) with
          | inl _ => ErrParamSendFailed
          | inr _ => ErrParamNotSerializable
          end /\
    daemonProc d' = Some (mkProcess (next_pid w)) /\
    trace w' = trace w ++ launch_events (Some option_) (set_params config d) w name
                 ++ [EvClose (paramW w); EvClose (outputR w)].
Proof.
  intros Hd (P0 & P1 & name & Hname & Hstart) Hfail.
  destruct (runDaemonProcess_launches (Some option_) (set_params config d) w
              name P0 P1 Hname Hstart) as (w1 & Hrun & Ht1 & Hi1 & Hw1 & _).
  destruct (sendParamsToDaemonProcess_run (launched (set_params config d) w)
              w1 (paramW w) eq_refl) as (w2 & Hsend & Ht2 & Hi2 & Hw2 & _).
  unfold Daemonize, mbind, M_bind, self, update, mret, M_ret.
  cbn [fst snd]. rewrite Hd. cbn [fst snd]. rewrite Hrun, Hsend.
  unfold send_result, send_events in *. cbn [params launched set_params] in *.
  rewrite Hw1 in *. cbn [Fd paramW] in *.
  destruct (json_Marshal (mkInitRequest config)) as [b|e] eqn:Hb.
  - destruct Hfail as [[e He]|[reason Hreason]]; [done|].
    rewrite Hreason in *. cbn.
    eexists _, _, _, name. split; [reflexivity|]. cbn.
    repeat split. by rewrite Ht2, Ht1, <- !app_assoc.
  - cbn. eexists _, _, _, name. split; [reflexivity|]. cbn.
    repeat split. by rewrite Ht2, Ht1, <- !app_assoc.
Qed.

End FurtherParent.

Section FurtherOptions.
Context `{Codec : JSONCodec}.

Lemma runDaemonProcess_inherit do option_ d w :
  option_ = None \/ option_ = Some DaemonizeOption_zero ->
  runDaemonProcess (Some (InheritParentIO w do)) (d, w) =
  runDaemonProcess option_ (d, w).
Proof.
  intros Hopt.
  unfold runDaemonProcess, mbind, M_bind, os, osvar, self, update, mret, M_ret.
  cbn [fst snd].
  destruct (pipe_fault w 0) as [m0|] eqn:P0.
  { by rewrite (os_Pipe_fails w m0 P0). }
  rewrite (os_Pipe_ok w P0). cbn [fst snd].
  destruct (pipe_fault w 1) as [m1|] eqn:P1.
  { by rewrite (os_Pipe_fails _ m1) by (by rewrite pipe_fault_next). }
  rewrite os_Pipe_ok by (by rewrite pipe_fault_next). cbn [fst snd].
  destruct (commandArguments d !! 0%nat) as [name|]; [|done].
  assert (forall w2 pr ow,
            os_Stdin w2 = os_Stdin w -> os_Stdout w2 = os_Stdout w ->
            os_Stderr w2 = os_Stderr w ->
            buildProcAttr (Some (InheritParentIO w do)) w2 pr ow =
            buildProcAttr option_ w2 pr ow) as ->; [|done..].
  intros w2 pr ow Hi Ho He. unfold buildProcAttr, InheritParentIO.
  cbn. rewrite Hi, Ho, He.
  destruct Hopt as [-> | ->]; cbn;
    by destruct (os_Stdin w), (os_Stdout w), (os_Stderr w).
Qed.

(** X11. [InheritParentIO] brings an option back to the zero option, as
    far as the launch goes: whatever the option held before, [Daemonize]
    with it behaves as with [DaemonizeOption{}], the child inheriting the
    parent's standard streams, directory and environment. *)
Theorem X11_inherit_is_zero_option config do (s : State) :
  Daemonize config (InheritParentIO s.2 do) s =
  Daemonize config DaemonizeOption_zero s.
Proof.
  destruct s as [d w].
  unfold Daemonize, mbind, M_bind, self, update, mret, M_ret.
  cbn [fst snd]. destruct (daemon d); [done|]. cbn [fst snd].
  by rewrite (runDaemonProcess_inherit do (Some DaemonizeOption_zero)) by by right.
Qed.

Lemma os_OpenFile_ok name flag perm t w :
  open_fault t 0 = None ->
  os_OpenFile name flag perm (t, w) =
    (inl (mkFile (next_fd w) name),
     (mkFileTable (tail (open_faults t))
                  (opened t ++ [(mkFile (next_fd w) name, flag)]),
      took_fd w)).
Proof.
  unfold open_fault, os_OpenFile. cbn.
  destruct (open_faults t) as [|[msg|] rest]; done.
Qed.

Lemma os_OpenFile_fails name flag perm t w msg :
  open_fault t 0 = Some msg ->
  os_OpenFile name flag perm (t, w) =
    (inr (osError msg), (mkFileTable (tail (open_faults t)) (opened t), w)).
Proof.
  unfold open_fault, os_OpenFile. cbn.
  destruct (open_faults t) as [|[m|] rest]; cbn; congruence.
Qed.

Lemma open_fault_tail t i files :
  open_fault (mkFileTable (tail (open_faults t)) files) i = open_fault t (S i).
Proof. unfold open_fault. cbn. by rewrite lookup_tail. Qed.

Lemma open_fault_tail_tail t i files :
  open_fault (mkFileTable (tail (tail (open_faults t))) files) i =
  open_fault t (S (S i)).
Proof. unfold open_fault. cbn. by rewrite !lookup_tail. Qed.

(** X12. [UseNullIO] is all or nothing on the option. It fails exactly
    when one of its three open calls fails, with the error of the first
    one that does, and then leaves the option as it was, while the files
    it had opened before the failure stay open (nothing is ever closed).
    When the three calls go through, the option holds three different
    files on the null device, the standard input opened read-only and the
    other two write-only, and keeps its directory and its environment. *)
Theorem X12_UseNullIO_all_or_nothing do t w :
  let '(err, do', (t', w')) := UseNullIO do (t, w) in
  let stdin := (null_stdin w, os_O_RDONLY) in
  let stdout := (null_stdout w, os_O_WRONLY) in
  let stderr := (null_stderr w, os_O_WRONLY) in
  trace w' = trace w /\
  match open_fault t 0, open_fault t 1, open_fault t 2 with
  | Some msg, _, _ =>
      err = Some (osError msg) /\ do' = do /\ opened t' = opened t
  | None, Some msg, _ =>
      err = Some (osError msg) /\ do' = do /\ opened t' = opened t ++ [stdin]
  | None, None, Some msg =>
      err = Some (osError msg) /\ do' = do /\
      opened t' = opened t ++ [stdin; stdout]
  | None, None, None =>
      err = None /\
      do' = mkOption (Dir do) (Some (null_stdin w)) (Some (null_stdout w))
                     (Some (null_stderr w)) (Env do) /\
      opened t' = opened t ++ [stdin; stdout; stderr] /\
      next_fd w' = next_fd w + 3
  end.
Proof.
  unfold UseNullIO, os_Open.
  destruct (open_fault t 0) as [m0|] eqn:F0.
  { rewrite (os_OpenFile_fails _ _ _ t w m0 F0). by cbn. }
  rewrite (os_OpenFile_ok _ _ _ t w F0).
  destruct (open_fault t 1) as [m1|] eqn:F1.
  { rewrite (os_OpenFile_fails _ _ _ _ _ m1) by (by rewrite open_fault_tail).
    by cbn. }
  rewrite os_OpenFile_ok by (by rewrite open_fault_tail). cbn [tail open_faults].
  destruct (open_fault t 2) as [m2|] eqn:F2.
  { rewrite (os_OpenFile_fails _ _ _ _ _ m2)
      by (by rewrite open_fault_tail_tail).
    cbn. by rewrite <- app_assoc. }
  rewrite os_OpenFile_ok by (by rewrite open_fault_tail_tail).
  cbn. rewrite <- !app_assoc. repeat split. lia.
Qed.

(** X13. After a successful [UseNullIO], the child a launch starts has the
    three null-device files of the option in slots 0, 1 and 2 of its
    descriptor table, whatever the parent's own standard streams are, and
    the two pipe ends behind them. *)
Theorem X13_null_streams_reach_child do do' t t' w w' d :
  UseNullIO do (t, w) = (None, do', (t', w')) ->
  launches d w' ->
  exists name argv attr proc d' w'',
    runDaemonProcess (Some do') (d, w') = (Returns None, (d', w'')) /\
    last (trace w'') = Some (EvStartProcess name argv attr proc) /\
    attr_Files attr =
      [Some (null_stdin w); Some (null_stdout w); Some (null_stderr w);
       Some (paramR w'); Some (outputW w')] /\
    Name (null_stdin w) = "/dev/null" /\
    Fd (paramR w') = next_fd w + 3.
Proof.
  intros Huse (P0 & P1 & name & Hname & Hstart).
  assert (do' = mkOption (Dir do) (Some (null_stdin w)) (Some (null_stdout w))
                  (Some (null_stderr w)) (Env do) /\
          next_fd w' = next_fd w + 3) as [-> Hfd].
  { unfold UseNullIO, os_Open in Huse.
    destruct (open_fault t 0) as [m0|] eqn:F0.
    { by rewrite (os_OpenFile_fails _ _ _ t w m0 F0) in Huse. }
    rewrite (os_OpenFile_ok _ _ _ t w F0) in Huse.
    destruct (open_fault t 1) as [m1|] eqn:F1.
    { by rewrite (os_OpenFile_fails _ _ _ _ _ m1) in Huse
        by (by rewrite open_fault_tail). }
    rewrite os_OpenFile_ok in Huse by (by rewrite open_fault_tail).
    cbn [tail open_faults] in Huse.
    destruct (open_fault t 2) as [m2|] eqn:F2.
    { by rewrite (os_OpenFile_fails _ _ _ _ _ m2) in Huse
        by (by rewrite open_fault_tail_tail). }
    rewrite os_OpenFile_ok in Huse by (by rewrite open_fault_tail_tail).
    cbn in Huse. simplify_eq. split; [done|]. cbn. lia. }
  destruct (runDaemonProcess_launches
              (Some (mkOption (Dir do) (Some (null_stdin w))
                       (Some (null_stdout w)) (Some (null_stderr w)) (Env do)))
              d w' name P0 P1 Hname Hstart) as (w'' & Hrun & Ht & _).
  eexists name, _, _, _, _, w''. split; [exact Hrun|]. split.
  - rewrite Ht. unfold launch_events. rewrite last_app. reflexivity.
  - repeat split. exact Hfd.
Qed.

End FurtherOptions.

Section FurtherHandshake.
Context `{Codec : JSONCodec}.

Lemma runDaemonProcess_keeps_Args option_ d w :
  os_Args (runDaemonProcess option_ (d, w)).2.2 = os_Args w.
Proof.
  unfold runDaemonProcess, mbind, M_bind, os, osvar, self, update, mret, M_ret.
  cbn [fst snd].
  destruct (pipe_fault w 0) as [m0|] eqn:P0.
  { by rewrite (os_Pipe_fails w m0 P0). }
  rewrite (os_Pipe_ok w P0). cbn [fst snd].
  destruct (pipe_fault w 1) as [m1|] eqn:P1.
  { by rewrite (os_Pipe_fails _ m1) by (by rewrite pipe_fault_next). }
  rewrite os_Pipe_ok by (by rewrite pipe_fault_next). cbn [fst snd].
  destruct (commandArguments d !! 0%nat) as [name|]; [|done].
  unfold os_StartProcess. cbn. by destruct (start_fault w name).
Qed.

(** X15. The two halves meet.  Take a parent whose launch goes through
    and whose envelope is written, the child started with the argument
    vector the parent built and reading that envelope on descriptor 3, and
    let the parent read what the child writes on descriptor 4.  If the
    codec decodes the envelope and the success record, the child is
    constructed in daemon role holding the decoded mapping, it has written
    the success record, and the parent's [Daemonize] returns nil with the
    supplied mapping stored. *)
Theorem X15_handshake_completes config option_ d wp wd envelope msg rest rest' :
  daemon d = false -> launches d wp ->
  json_Marshal (mkInitRequest config) = inl envelope ->
  write_fault wp (next_fd wp + 1) = None ->
  os_Args wd = markArguments 0 (commandArguments d) [] ->
  incoming wd 3 = envelope ->
  json_DecodeRequest envelope = DecOk msg rest ->
  write_fault wd 4 = None ->
  status_stream wp = json_Encode started_record ->
  json_DecodeResponse (json_Encode started_record) = DecOk started_record rest' ->
  exists child wd' d' wp',
    NewDaemonizer wd = (Returns (Some child, None), wd') /\
    IsDaemon child = true /\ GetParams child = Params msg /\
    EvWrite fd4 (status_stream wp) ∈ trace wd' /\
    Daemonize config option_ (d, wp) = (Returns None, (d', wp')) /\
    GetParams d' = config.
Proof.
  intros Hd Hl Hb Hw Hargs Hin Hdec Hw4 Hstatus Hresp.
  assert (DaemonProcessArgument ∈ os_Args wd) as Hmark.
  { destruct Hl as (_ & _ & name & Hname & _).
    destruct (commandArguments d) as [|n rest0]; [done|].
    rewrite Hargs, markArguments_cons. right. left. }
  rewrite (NewDaemonizer_marked wd Hmark). cbn zeta.
  edestruct initDaemonProcess_decodes_args as (wd' & -> & Ht & _);
    [reflexivity|cbn; rewrite Hin; exact Hdec|].
  cbn [write_fault set_Args] in *. rewrite Hw4 in *.
  cbn [fmap option_fmap option_map].
  destruct (Daemonize_handshake config option_ d wp Hd Hl) as [wp' Hrun].
  { split; [by eexists|done]. }
  rewrite Hrun, responseChan_unfold, Hstatus, Hresp. cbn.
  eexists _, wd', _, wp'. repeat split.
  rewrite Ht. unfold response_events. cbn. rewrite Hw4.
  apply elem_of_app. right. right. left.
Qed.

(** X16. [Daemonize] leaves the outcome of role detection alone: on every
    path in parent role, a panic included, the receiver keeps its role and
    its argument list and [os.Args] is unchanged. *)
Theorem X16_daemonize_keeps_role_and_arguments config option_ d w :
  daemon d = false ->
  let s' := (Daemonize config option_ (d, w)).2 in
  IsDaemon s'.1 = false /\
  GetCommandArguments s'.1 = GetCommandArguments d /\
  os_Args s'.2 = os_Args w.
Proof.
  intros Hd.
  pose proof (runDaemonProcess_keeps_Args (Some option_) (set_params config d) w)
    as Hargs.
  destruct (runDaemonProcess_paths (Some option_) (set_params config d) w)
    as (r1 & d1 & w1 & Hrun & Hrole & Hcmd & _ & _).
  rewrite Hrun in Hargs. cbn [snd] in Hargs.
  unfold Daemonize, mbind, M_bind, self, update, mret, M_ret.
  cbn [fst snd]. rewrite Hd. cbn [fst snd]. rewrite Hrun.
  cbn [daemon commandArguments set_params] in Hrole, Hcmd.
  unfold IsDaemon, GetCommandArguments.
  destruct r1 as [[e|]|msg]; cbn; try by rewrite Hrole, Hd.
  unfold sendParamsToDaemonProcess, defer, mbind, M_bind, os, self, mret, M_ret.
  cbn [fst snd]. unfold File_Write, File_Close.
  destruct (json_Marshal _) as [b|e], (paramWritePipe d1) as [f|]; cbn;
    try destruct (write_fault w1 (Fd f)); cbn;
    try destruct (outputReadPipe d1); cbn;
    try (destruct (readOutputFromDaemonProcess_returns (d1, w1)) as (ch & ->));
    try (destruct (readOutputFromDaemonProcess_returns
                     (d1, log (EvClose f) (log (EvWrite f b) w1))) as (ch & ->));
    cbn; by rewrite Hrole, Hd.
Qed.

End FurtherHandshake.

(** * The further properties on concrete processes *)

Section FurtherExamples.
Import MiniJSON MiniJSONFacts Scenario Cases.

Ltac launch_goes_through := repeat split; by eexists.
Ltac send_goes_through := split; [eexists; vm_compute; reflexivity | reflexivity].

Lemma X1_init_needs_daemon_role_witness :
  initDaemonProcess (parent, parent_world []) =
    (Returns (Some ErrNotDaemonProcess), (parent, parent_world [])).
Proof.
  exact (X1_init_needs_daemon_role parent (parent_world []) eq_refl).
Defined.


Lemma X3_daemon_cannot_report_witness :
  exists w',
    NewDaemonizer (mute envelope) =
      (Returns (None, Some (osError "write |1: broken pipe")), w') /\
    trace w' = [EvClose fd3; EvClose fd4].
Proof.
  assert (DaemonProcessArgument ∈ os_Args (mute envelope)) as Hmark
    by (vm_compute; right; left).
  assert (json_DecodeRequest (incoming (mute envelope) 3)
          = DecOk received []) as Hdec by (vm_compute; reflexivity).
  exact (X3_daemon_cannot_report (mute envelope) received []
           "write |1: broken pipe" Hmark Hdec eq_refl).
Defined.

Lemma X5_marker_round_trip_witness :
  exists child wd',
    readCommandArguments (Daemonizer_zero, daemon_world []) =
      (Returns tt, (child, wd')) /\
    IsDaemon child = true /\
    GetCommandArguments child = ["/usr/bin/echod"; "-v"] /\
    os_Args wd' = ["/usr/bin/echod"; "-v"].
Proof.
  assert (GetCommandArguments
            (readCommandArguments (Daemonizer_zero, parent_world [])).2.1 <> [])
    as Hne by discriminate.
  exact (X5_marker_round_trip (parent_world []) (daemon_world []) Hne eq_refl).
Defined.


Lemma X7_first_decisive_record_witness :
  (Daemonize config options (parent, parent_world chatty)).1 =
    Returns (Some (errors_New "invalid character in JSON input")).
Proof.
  assert (launches parent (parent_world chatty)) as Hl by launch_goes_through.
  assert (sends config (parent_world chatty)) as Hs by send_goes_through.
  assert (responseChan (status_stream (parent_world chatty)) =
            [mkResponse "starting" "reading parameters"] ++
            mkResponse "error" "invalid character in JSON input" :: [])
    as Hch by (vm_compute; reflexivity).
  assert (Forall passed_over [mkResponse "starting" "reading parameters"])
    as Hbefore by (repeat constructor; discriminate).
  assert (~ passed_over (mkResponse "error" "invalid character in JSON input"))
    as Hmsg by (intros [_ H]; by apply H).
  exact (X7_first_decisive_record config options parent (parent_world chatty)
           _ _ _ eq_refl Hl Hs Hch Hbefore Hmsg).
Defined.

Lemma X8_malformed_status_stream_witness :
  (Daemonize config options (parent, parent_world (bytes "garbage"))).1 =
    Returns (Some (errors_New "invalid character in JSON input")).
Proof.
  assert (launches parent (parent_world (bytes "garbage"))) as Hl
    by launch_goes_through.
  assert (sends config (parent_world (bytes "garbage"))) as Hs
    by send_goes_through.
  assert (json_DecodeResponse (status_stream (parent_world (bytes "garbage")))
          = DecErr syntax_error) as Hdec by (vm_compute; reflexivity).
  exact (X8_malformed_status_stream config options parent
           (parent_world (bytes "garbage")) syntax_error eq_refl Hl Hs Hdec).
Defined.

Lemma X9_failed_launch_keeps_nothing_witness :
  (runDaemonProcess (Some options) (parent, exhausted)).2.1 = parent /\
  exists events,
    trace (runDaemonProcess (Some options) (parent, exhausted)).2.2 =
      trace exhausted ++ events /\
    Forall is_pipe_event events /\ (length events <= 2)%nat /\
    forall f, EvClose f ∉ events.
Proof.
  assert (runDaemonProcess (Some options) (parent, exhausted) =
            (Returns (Some (osError "pipe2: too many open files")),
             ((runDaemonProcess (Some options) (parent, exhausted)).2.1,
              (runDaemonProcess (Some options) (parent, exhausted)).2.2)))
    as Hrun by (vm_compute; reflexivity).
  exact (X9_failed_launch_keeps_nothing (Some options) parent exhausted _ _ _ Hrun).
Defined.

Lemma X10_child_command_line_witness :
  exists attr d' w',
    runDaemonProcess (Some options) (parent, parent_world []) =
      (Returns None, (d', w')) /\
    last (trace w') =
      Some (EvStartProcess "/usr/bin/echod"
              ["/usr/bin/echod"; DaemonProcessArgument; "-v"] attr
              (mkProcess 4242)) /\
    attr_Dir attr = "" /\ attr_Env attr = None /\
    daemonProc d' = Some (mkProcess 4242).
Proof.
  exact (X10_child_command_line (Some options) parent (parent_world [])
           "/usr/bin/echod" ["-v"] eq_refl eq_refl eq_refl eq_refl).
Defined.

Lemma X13_null_streams_reach_child_witness :
  exists name argv attr proc d' w'',
    runDaemonProcess (Some (UseNullIO options (files, parent_world [])).1.2)
      (parent, (UseNullIO options (files, parent_world [])).2.2) =
      (Returns None, (d', w'')) /\
    last (trace w'') = Some (EvStartProcess name argv attr proc) /\
    attr_Files attr =
      [Some (mkFile 5 "/dev/null"); Some (mkFile 6 "/dev/null");
       Some (mkFile 7 "/dev/null"); Some (mkFile 8 "|0");
       Some (mkFile 11 "|1")] /\
    Name (null_stdin (parent_world [])) = "/dev/null" /\
    Fd (mkFile 8 "|0") = 8.
Proof.
  assert (UseNullIO options (files, parent_world []) =
            (None, (UseNullIO options (files, parent_world [])).1.2,
             ((UseNullIO options (files, parent_world [])).2.1,
              (UseNullIO options (files, parent_world [])).2.2)))
    as Huse by (vm_compute; reflexivity).
  assert (launches parent (UseNullIO options (files, parent_world [])).2.2)
    as Hl by launch_goes_through.
  exact (X13_null_streams_reach_child options _ files _ (parent_world []) _
           parent Huse Hl).
Defined.

Lemma X14_send_failure_after_start_witness :
  exists err d' w' name,
    Daemonize unserializable options (parent, parent_world []) =
      (Returns (Some err), (d', w')) /\
    err = ErrParamNotSerializable /\
    daemonProc d' = Some (mkProcess 4242) /\
    trace w' =
      launch_events (Some options) (set_params unserializable parent)
        (parent_world []) name
      ++ [EvClose (mkFile 6 "|1"); EvClose (mkFile 7 "|0")].
Proof.
  assert (launches parent (parent_world [])) as Hl by launch_goes_through.
  assert ((exists e, json_Marshal (mkInitRequest unserializable) = inr e) \/
          is_Some (write_fault (parent_world []) (next_fd (parent_world []) + 1)))
    as Hfail by (left; eexists; vm_compute; reflexivity).
  exact (X14_send_failure_after_start unserializable options parent
           (parent_world []) eq_refl Hl Hfail).
Defined.

Lemma X15_handshake_completes_witness :
  exists child wd' d' wp',
    NewDaemonizer (daemon_world envelope) = (Returns (Some child, None), wd') /\
    IsDaemon child = true /\ GetParams child = Params received /\
    EvWrite fd4 started ∈ trace wd' /\
    Daemonize config options (parent, parent_world started) =
      (Returns None, (d', wp')) /\
    GetParams d' = config.
Proof.
  assert (launches parent (parent_world started)) as Hl by launch_goes_through.
  assert (json_Marshal (mkInitRequest config) = inl envelope) as Hb
    by (vm_compute; reflexivity).
  assert (json_DecodeRequest envelope = DecOk received []) as Hdec
    by (vm_compute; reflexivity).
  assert (json_DecodeResponse (json_Encode started_record)
          = DecOk started_record [Byte.x0a]) as Hresp
    by (vm_compute; reflexivity).
  exact (X15_handshake_completes config options parent (parent_world started)
           (daemon_world envelope) envelope received [] [Byte.x0a]
           eq_refl Hl Hb eq_refl eq_refl eq_refl Hdec eq_refl eq_refl Hresp).
Defined.

Lemma X16_daemonize_keeps_role_witness :
  IsDaemon (Daemonize config options (parent, exhausted)).2.1 = false /\
  GetCommandArguments (Daemonize config options (parent, exhausted)).2.1 =
    ["/usr/bin/echod"; "-v"] /\
  os_Args (Daemonize config options (parent, exhausted)).2.2 = ["/usr/bin/echod"].
Proof.
  exact (X16_daemonize_keeps_role_and_arguments config options parent exhausted
           eq_refl).
Defined.

End FurtherExamples.
